(** * bugwarrior, Jira service: the issue normaliser and its field mappers

    A shallow embedding of [bugwarrior/services/jira.py] (classes
    [JiraIssue] and [JiraService]) and the properties its specification
    states about it.

    Conventions of the embedding.
    - Python values that can occur in a decoded JSON payload are the
      inductive [pyval]; a JSON object is a finite map with string keys.
    - A Python expression that can raise evaluates to a [res]: [Ok v] or
      [Raise e], with [e] the class of the exception. [try_except]
      models a [try: ... except (E1, E2): ...] statement.
    - The interpreter is Python 3: [/] is true division and [str] is text.
      Text is modelled by [string]; a character is one [ascii].
    - Floats are IEEE binary64 numbers, as [spec_float] with precision 53
      and exponent bound 1024. *)

From Stdlib Require Import ZArith NArith String Ascii SpecFloat Lia.
From stdpp Require Import base option list strings pretty gmap.

Set Warnings "-register-all".

(** ** Python values, exceptions and results *)

Module Py.

Inductive pyval :=
| VNone
| VBool (b : bool)
| VInt (z : Z)
| VFloat (f : spec_float)
| VStr (s : string)
| VList (l : list pyval)
| VDict (d : gmap string pyval).

(** A decoded JSON object: [record], [extra] and every nested mapping. *)
Abbreviation dict := (gmap string pyval).

Inductive exn :=
| KeyError
| TypeError
| IndexError
| AttributeError
| ValueError
| OverflowError
| ZeroDivisionError
| TemplateError
| JIRAError.

#[global] Instance exn_eq_dec : EqDecision exn.
Proof. solve_decision. Defined.

Inductive res (A : Type) :=
| Ok (a : A)
| Raise (e : exn).
Arguments Ok {A} a.
Arguments Raise {A} e.

#[global] Instance res_ret : MRet res := fun A a => Ok a.
#[global] Instance res_bind : MBind res := fun A B f m =>
  match m with
  | Ok a => f a
  | Raise e => Raise e
  end.

(** [try: body  except handled: handler]. *)
Definition try_except {A} (body : res A) (handled : list exn) (handler : res A) : res A :=
  match body with
  | Ok a => Ok a
  | Raise e => if bool_decide (e ∈ handled) then handler else Raise e
  end.

(** *** Subscription and attribute access *)

(** [d[k]] on a dict. *)
Definition getitem (d : dict) (k : string) : res pyval :=
  match d !! k with
  | Some v => Ok v
  | None => Raise KeyError
  end.

(** [v[k]] with a string [k]: only a dict accepts it; sequences want an
    integer index and the other values are not subscriptable. *)
Definition subscript_str (v : pyval) (k : string) : res pyval :=
  match v with
  | VDict d => getitem d k
  | _ => Raise TypeError
  end.

(** Python index normalisation: a negative index counts from the end. *)
Definition seq_index {A} (l : list A) (i : Z) : res A :=
  let n := Z.of_nat (length l) in
  let j := if (i <? 0)%Z then (i + n)%Z else i in
  if (j <? 0)%Z then Raise IndexError
  else match l !! Z.to_nat j with
       | Some a => Ok a
       | None => Raise IndexError
       end.

(** [v[i]] with an integer [i]. A JSON object has string keys only, so an
    integer key is never found in it. *)
Definition subscript_int (v : pyval) (i : Z) : res pyval :=
  match v with
  | VList l => seq_index l i
  | VStr s => c ← seq_index (list_ascii_of_string s) i; Ok (VStr (String c EmptyString))
  | VDict _ => Raise KeyError
  | _ => Raise TypeError
  end.

(** [v.get(k, dflt)]: a method of dicts only. *)
Definition method_get (v : pyval) (k : string) (dflt : pyval) : res pyval :=
  match v with
  | VDict d => Ok (default dflt (d !! k))
  | _ => Raise AttributeError
  end.

(** [d.get(k, dflt)] on a value known to be a dict. *)
Definition dict_get (d : dict) (k : string) (dflt : pyval) : pyval :=
  default dflt (d !! k).

(** [d.get(k, dflt)] when the key is an arbitrary value: an unhashable key
    raises, and a key that is not a string equals no key of a table whose
    keys are strings. *)
Definition dict_get_value (d : dict) (k dflt : pyval) : res pyval :=
  match k with
  | VList _ | VDict _ => Raise TypeError
  | VStr s => Ok (default dflt (d !! s))
  | _ => Ok dflt
  end.

(** The dict display [{k1: v1, ..., kn: vn}]: items are stored in source
    order, a later item replacing an earlier one with the same key. *)
Definition dict_display (items : list (string * pyval)) : dict :=
  foldl (fun d kv => <[kv.1 := kv.2]> d) ∅ items.

(** Iteration by a [for] loop: lists yield their items, strings their
    characters, dicts their keys (a [gmap] enumerates them in its own
    order); the other values are not iterable. *)
Definition py_iter (v : pyval) : res (list pyval) :=
  match v with
  | VList l => Ok l
  | VStr s => Ok ((fun c => VStr (String c EmptyString)) <$> list_ascii_of_string s)
  | VDict d => Ok (VStr <$> (map_to_list d).*1)
  | _ => Raise TypeError
  end.

(** *** Numbers *)

Definition prec : Z := 53.
Definition emax : Z := 1024.

(** An integer as the exact quotient numerator of a float division. *)
Definition exact_of_Z (z : Z) : spec_float :=
  match z with
  | Z0 => S754_zero false
  | Zpos p => S754_finite false p 0
  | Zneg p => S754_finite true p 0
  end.

(** [float(z)], rounded to nearest even; too large an integer overflows. *)
Definition float_of_Z (z : Z) : res spec_float :=
  match binary_normalize prec emax z 0 false with
  | S754_infinity _ => Raise OverflowError
  | f => Ok f
  end.

Definition is_zero (f : spec_float) : bool :=
  match f with
  | S754_zero _ => true
  | _ => false
  end.

(** [a / b] on two integers: the correctly rounded quotient. *)
Definition int_truediv (a b : Z) : res pyval :=
  if (b =? 0)%Z then Raise ZeroDivisionError
  else match SFdiv prec emax (exact_of_Z a) (exact_of_Z b) with
       | S754_infinity _ => Raise OverflowError
       | f => Ok (VFloat f)
       end.

Definition float_truediv (a b : spec_float) : res pyval :=
  if is_zero b then Raise ZeroDivisionError else Ok (VFloat (SFdiv prec emax a b)).

Definition Z_of_bool (b : bool) : Z := if b then 1%Z else 0%Z.

(** The numeric reading of a value: [bool] is a subclass of [int]. *)
Inductive number :=
| NInt (z : Z)
| NFloat (f : spec_float).

Definition as_number (v : pyval) : option number :=
  match v with
  | VBool b => Some (NInt (Z_of_bool b))
  | VInt z => Some (NInt z)
  | VFloat f => Some (NFloat f)
  | _ => None
  end.

(** [a / b] (true division). *)
Definition truediv (a b : pyval) : res pyval :=
  match as_number a, as_number b with
  | Some (NInt x), Some (NInt y) => int_truediv x y
  | Some (NFloat x), Some (NInt y) => fy ← float_of_Z y; float_truediv x fy
  | Some (NInt x), Some (NFloat y) => fx ← float_of_Z x; float_truediv fx y
  | Some (NFloat x), Some (NFloat y) => float_truediv x y
  | _, _ => Raise TypeError
  end.

(** [v == n] for an integer literal [n]. *)
Definition eq_int (v : pyval) (n : Z) : bool :=
  match as_number v with
  | Some (NInt z) => (z =? n)%Z
  | Some (NFloat f) => SFeqb f (binary_normalize prec emax n 0 false)
  | None => false
  end.

End Py.
Export Py.

(** ** Text: slices and [rsplit] *)

Module Text.

(** [s[:-5]]: everything but the last five characters; empty when [s] has
    fewer than five. *)
Definition slice_to_minus5 (s : string) : string :=
  substring 0 (String.length s - 5) s.

(** [s[-5:]]: the last five characters; all of [s] when it has fewer. *)
Definition slice_from_minus5 (s : string) : string :=
  substring (String.length s - 5) 5 s.

(** [s.rsplit(sep, 1)]: split once, at the last [sep]. The result is the
    part before it and, when [sep] occurs, the part after it. *)
Fixpoint rsplit1 (sep : ascii) (s : string) : string * option string :=
  match s with
  | EmptyString => (EmptyString, None)
  | String c s' =>
      match rsplit1 sep s' with
      | (h, Some t) => (String c h, Some t)
      | (h, None) =>
          if Ascii.eqb c sep then (EmptyString, Some s') else (String c h, None)
      end
  end.

(** The list [s.rsplit(sep, 1)] has one or two items. *)
Definition rsplit (sep : ascii) (s : string) : list pyval :=
  match rsplit1 sep s with
  | (h, Some t) => [VStr h; VStr t]
  | (h, None) => [VStr h]
  end.

End Text.
Export Text.

(** ** [datetime.strptime] and [strftime] for the two formats of [get_entry] *)

Module Datetime.

Record datetime := mk_datetime {
  year : N;
  month : N;
  day : N;
  hour : N;
  minute : N;
  second : N;
  microsecond : N
}.

Definition in_range (lo hi c : ascii) : bool :=
  (N_of_ascii lo <=? N_of_ascii c)%N && (N_of_ascii c <=? N_of_ascii hi)%N.

Definition is_digit (c : ascii) : bool := in_range "0" "9" c.

(** [int] of one character of a matched group; the day group may start
    with a blank, which [int] skips. *)
Definition digit_val (c : ascii) : N :=
  if is_digit c then (N_of_ascii c - 48)%N else 0%N.

Definition val2 (c1 c2 : ascii) : N := (10 * digit_val c1 + digit_val c2)%N.

(** The alternatives of the directive patterns, by length.
    [%m]: [1[0-2]|0[1-9]|[1-9]]. *)
Definition re_m2 (c1 c2 : ascii) : bool :=
  (Ascii.eqb c1 "1" && in_range "0" "2" c2) || (Ascii.eqb c1 "0" && in_range "1" "9" c2).
Definition re_m1 (c : ascii) : bool := in_range "1" "9" c.

(** [%d]: [3[0-1]|[1-2]\d|0[1-9]|[1-9]| [1-9]]. *)
Definition re_d2 (c1 c2 : ascii) : bool :=
  (Ascii.eqb c1 "3" && in_range "0" "1" c2)
  || (in_range "1" "2" c1 && is_digit c2)
  || (Ascii.eqb c1 "0" && in_range "1" "9" c2)
  || (Ascii.eqb c1 " " && in_range "1" "9" c2).
Definition re_d1 (c : ascii) : bool := in_range "1" "9" c.

(** [%H]: [2[0-3]|[0-1]\d|\d]. *)
Definition re_H2 (c1 c2 : ascii) : bool :=
  (Ascii.eqb c1 "2" && in_range "0" "3" c2) || (in_range "0" "1" c1 && is_digit c2).
Definition re_H1 (c : ascii) : bool := is_digit c.

(** [%M]: [[0-5]\d|\d]. *)
Definition re_M2 (c1 c2 : ascii) : bool := in_range "0" "5" c1 && is_digit c2.
Definition re_M1 (c : ascii) : bool := is_digit c.

(** [%S]: [6[0-1]|[0-5]\d|\d]. *)
Definition re_S2 (c1 c2 : ascii) : bool :=
  (Ascii.eqb c1 "6" && in_range "0" "1" c2) || (in_range "0" "5" c1 && is_digit c2).
Definition re_S1 (c : ascii) : bool := is_digit c.

(** The literals of the format; the pattern is compiled with IGNORECASE,
    so the [T] also matches [t]. *)
Definition lit_dash (c : ascii) : bool := Ascii.eqb c "-".
Definition lit_T (c : ascii) : bool := Ascii.eqb c "T" || Ascii.eqb c "t".
Definition lit_colon (c : ascii) : bool := Ascii.eqb c ":".
Definition lit_dot (c : ascii) : bool := Ascii.eqb c ".".

(** A group of one or two characters followed by a literal. The literal
    is never a digit, so at most one alternative can be followed by it and
    backtracking finds that one. *)
Definition group (re2 : ascii -> ascii -> bool) (re1 : ascii -> bool)
    (lit : ascii -> bool) (s : string) : option (N * string) :=
  match s with
  | String c1 (String c2 rest) =>
      match rest with
      | String c3 rest' =>
          if re2 c1 c2 && lit c3 then Some (val2 c1 c2, rest')
          else if re1 c1 && lit c2 then Some (digit_val c1, rest)
          else None
      | EmptyString =>
          if re1 c1 && lit c2 then Some (digit_val c1, rest) else None
      end
  | _ => None
  end.

(** [%Y]: exactly four digits, here followed by the dash. *)
Definition group_Y (s : string) : option (N * string) :=
  match s with
  | String y1 (String y2 (String y3 (String y4 (String c rest)))) =>
      if is_digit y1 && is_digit y2 && is_digit y3 && is_digit y4 && lit_dash c
      then Some ((1000 * digit_val y1 + 100 * digit_val y2 + val2 y3 y4)%N, rest)
      else None
  | _ => None
  end.

(** The value of a run of decimal digits. *)
Definition int_of_digits (l : list ascii) : N :=
  foldl (fun acc c => (10 * acc + digit_val c)%N) 0%N l.

(** [%f]: one to six digits, padded on the right to microseconds; it ends
    the format, so nothing may follow. *)
Definition group_f (s : string) : option N :=
  let l := list_ascii_of_string s in
  let n := length l in
  if forallb is_digit l && (1 <=? n)%nat && (n <=? 6)%nat
  then Some (int_of_digits (l ++ replicate (6 - n) "0"%char))
  else None.

(** The match of ['%Y-%m-%dT%H:%M:%S.%f'] against all of [s]. *)
Definition parse (s : string) : option datetime :=
  '(yr, s) ← group_Y s;
  '(mo, s) ← group re_m2 re_m1 lit_dash s;
  '(dy, s) ← group re_d2 re_d1 lit_T s;
  '(hr, s) ← group re_H2 re_H1 lit_colon s;
  '(mi, s) ← group re_M2 re_M1 lit_colon s;
  '(sc, s) ← group re_S2 re_S1 lit_dot s;
  us ← group_f s;
  Some (mk_datetime yr mo dy hr mi sc us).

Definition is_leap (y : N) : bool :=
  (y mod 4 =? 0)%N && (negb (y mod 100 =? 0)%N || (y mod 400 =? 0)%N).

Definition days_in_month (y m : N) : N :=
  match m with
  | 2%N => if is_leap y then 29%N else 28%N
  | 4%N | 6%N | 9%N | 11%N => 30%N
  | _ => 31%N
  end.

(** What the [datetime] constructor accepts among the matched values:
    years from 1, a day of the month, no leap second. *)
Definition valid (dt : datetime) : bool :=
  (1 <=? year dt)%N && (day dt <=? days_in_month (year dt) (month dt))%N
  && (second dt <=? 59)%N.

(** [datetime.strptime(s, '%Y-%m-%dT%H:%M:%S.%f')]. *)
Definition strptime (s : string) : res datetime :=
  match parse s with
  | Some dt => if valid dt then Ok dt else Raise ValueError
  | None => Raise ValueError
  end.

Definition digit_char (n : N) : ascii := ascii_of_N (48 + n mod 10).

Definition pad2 (n : N) : string :=
  String (digit_char (n / 10)) (String (digit_char n) EmptyString).

Definition pad4 (n : N) : string :=
  String (digit_char (n / 1000)) (String (digit_char (n / 100)) (pad2 n)).

(** [%Y] as the C library prints it: the year in decimal, without padding
    (years before 1000 have fewer than four digits). The years of a
    [datetime] go from 1 to 9999. *)
Definition year_text (y : N) : string :=
  if (y <? 10)%N then String (digit_char y) EmptyString
  else if (y <? 100)%N then pad2 y
  else if (y <? 1000)%N then String (digit_char (y / 100)) (pad2 y)
  else pad4 y.

(** [dt.strftime('%Y%m%dT%H%M%S')]: the year in decimal, the other fields
    zero padded to two digits. The microseconds are not printed. *)
Definition strftime (dt : datetime) : string :=
  year_text (year dt) +:+ pad2 (month dt) +:+ pad2 (day dt) +:+ "T"
  +:+ pad2 (hour dt) +:+ pad2 (minute dt) +:+ pad2 (second dt).

End Datetime.
Export Datetime.

(** ** Libraries the module calls *)

(** [str(v)] on a float or a container prints its [repr]; that printer is
    part of the interpreter and is a parameter here. *)
Class PyRepr := py_repr : pyval -> string.

(** [jinja2.Template]: compiling a template source can raise, and so can
    rendering it against a context. *)
Class Jinja2 := {
  template : Type;
  Template : string -> res template;
  render : template -> dict -> res string
}.

(** [str(v)]. *)
Definition py_str `{PyRepr} (v : pyval) : string :=
  match v with
  | VNone => "None"
  | VBool true => "True"
  | VBool false => "False"
  | VInt z => pretty z
  | VStr s => s
  | _ => py_repr v
  end.

(** ** class JiraIssue *)

(** The origin of an issue: what [JiraService.get_service_metadata] and
    the service base class put in it, as far as [JiraIssue] reads it. *)
Record Origin := {
  url : string;
  default_priority : pyval;
  import_labels_as_tags : bool;
  label_template : string
}.

Record JiraIssue := {
  record : dict;
  origin : Origin;
  extra : dict
}.

Definition SUMMARY : string := "jirasummary".
Definition URL : string := "jiraurl".
Definition FOREIGN_ID : string := "jiraid".
Definition DESCRIPTION : string := "jiradescription".
Definition ESTIMATE : string := "jiraestimate".
Definition FIX_VERSION : string := "jirafixversion".
Definition CREATED_AT : string := "jiracreatedts".

(** The declared user-defined attributes, with their types. *)
Definition UDAS : list (string * string) :=
  [ (SUMMARY, "string"); (URL, "string"); (DESCRIPTION, "string");
    (FOREIGN_ID, "string"); (ESTIMATE, "numeric"); (FIX_VERSION, "string");
    (CREATED_AT, "date") ].

Definition UNIQUE_KEY : list string := [URL].

Definition PRIORITY_MAP : dict :=
  dict_display
    [ ("Highest", VStr "H"); ("High", VStr "H"); ("Medium", VStr "M");
      ("Low", VStr "L"); ("Lowest", VStr "L"); ("Trivial", VStr "L");
      ("Minor", VStr "L"); ("Major", VStr "M"); ("Critical", VStr "H");
      ("Blocker", VStr "H") ].

Section Getters.
Context `{PyRepr} `{Jinja2}.

Definition get_entry (self : JiraIssue) : res string :=
  fields ← getitem (record self) "fields";
  created_at ← subscript_str fields "created";
  match created_at with
  | VStr created_at =>
      (* strip off the timezone offset *)
      let timestamp := slice_to_minus5 created_at in
      let timezone := slice_from_minus5 created_at in
      timestamp ← strptime timestamp;
      Ok (strftime timestamp +:+ timezone)
  | _ =>
      (* a value that is not text fails in the slicing or in strptime *)
      Raise TypeError
  end.

(** The loop of [get_tags]: [context] and [tags] are the two objects it
    updates in place. *)
Fixpoint render_labels (t : template) (context : dict) (tags : list string)
    (labels : list pyval) : res (list string) :=
  match labels with
  | [] => Ok tags
  | label :: rest =>
      let context := <["label" := label]> context in
      tag ← render t context;
      render_labels t context (tags ++ [tag]) rest
  end.

Definition get_tags (self : JiraIssue) : res (list string) :=
  let tags := [] in
  if negb (import_labels_as_tags (origin self)) then Ok tags
  else
    let context := record self in
    label_template ← Template (label_template (origin self));
    labels ← method_get (dict_get (record self) "fields" (VDict ∅)) "labels" (VList []);
    labels ← py_iter labels;
    render_labels label_template context tags labels.

Definition get_annotations (self : JiraIssue) : pyval :=
  dict_get (extra self) "annotations" (VList []).

(** [v.rsplit('-', 1)]: a method of strings. *)
Definition method_rsplit (v : pyval) : res (list pyval) :=
  match v with
  | VStr s => Ok (rsplit "-" s)
  | _ => Raise AttributeError
  end.

Definition get_project (self : JiraIssue) : res pyval :=
  key ← getitem (record self) "key";
  parts ← method_rsplit key;
  seq_index parts 0.

Definition get_number (self : JiraIssue) : res pyval :=
  key ← getitem (record self) "key";
  parts ← method_rsplit key;
  seq_index parts 1.

(** [str + str + v]: concatenation wants text on the right too. *)
Definition get_url (self : JiraIssue) : res string :=
  key ← getitem (record self) "key";
  match key with
  | VStr key => Ok (url (origin self) +:+ "/browse/" +:+ key)
  | _ => Raise TypeError
  end.

Definition get_summary (self : JiraIssue) : res pyval :=
  if eq_int (dict_get (extra self) "jira_version" VNone) 4 then
    fields ← getitem (record self) "fields";
    summary ← subscript_str fields "summary";
    subscript_str summary "value"
  else
    fields ← getitem (record self) "fields";
    subscript_str fields "summary".

Definition get_estimate (self : JiraIssue) : res pyval :=
  if eq_int (dict_get (extra self) "jira_version" VNone) 4 then
    fields ← getitem (record self) "fields";
    timeestimate ← subscript_str fields "timeestimate";
    subscript_str timeestimate "value"
  else
    try_except
      (fields ← getitem (record self) "fields";
       timeestimate ← subscript_str fields "timeestimate";
       minutes ← truediv timeestimate (VInt 60);
       truediv minutes (VInt 60))
      [TypeError; KeyError]
      (Ok VNone).

Definition get_priority (self : JiraIssue) : res pyval :=
  fields ← getitem (record self) "fields";
  value ← method_get fields "priority" VNone;
  value ← try_except (subscript_str value "name") [TypeError] (Ok (VStr (py_str value)));
  dict_get_value PRIORITY_MAP value (default_priority (origin self)).

Definition get_fix_version (self : JiraIssue) : res pyval :=
  try_except
    (fields ← getitem (record self) "fields";
     versions ← method_get fields "fixVersions" (VList [VDict ∅]);
     first ← subscript_int versions 0;
     method_get first "name" VNone)
    [IndexError; KeyError; AttributeError; TypeError]
    (Ok VNone).

Definition to_taskwarrior (self : JiraIssue) : res dict :=
  project ← get_project self;
  priority ← get_priority self;
  let annotations := get_annotations self in
  tags ← get_tags self;
  entry ← get_entry self;
  jiraurl ← get_url self;
  jiraid ← getitem (record self) "key";
  jiradescription ← method_get (dict_get (record self) "fields" (VDict ∅)) "description" VNone;
  jirasummary ← get_summary self;
  jiraestimate ← get_estimate self;
  jirafixversion ← get_fix_version self;
  Ok (dict_display
        [ ("project", project);
          ("priority", priority);
          ("annotations", annotations);
          ("tags", VList (VStr <$> tags));
          ("entry", VStr entry);
          (URL, VStr jiraurl);
          (FOREIGN_ID, jiraid);
          (DESCRIPTION, jiradescription);
          (SUMMARY, jirasummary);
          (ESTIMATE, jiraestimate);
          (FIX_VERSION, jirafixversion) ]).

End Getters.

(** ** class JiraService *)

(** One search result of the [jira] client: a resource with its [key]
    attribute and its decoded payload [raw]. *)
Record Case := {
  key : string;
  raw : dict
}.

(** One comment resource: [comment.author.name] and [comment.body]. *)
Record Comment := {
  author_name : string;
  body : string
}.

(** What the service reaches outside this module: the remote Jira server
    behind [self.jira], the integer reading of a configuration value
    ([config.getint]), and two methods inherited from the base classes. *)
Class Environment := {
  search_issues : string -> res (list Case);
  comments : string -> res (list Comment);
  getint : string -> res Z;
  build_annotations : list (string * string) -> string -> list string;
  get_processed_url : string -> string
}.

Record JiraService := {
  service_origin : Origin;
  query : string;
  (** the options of the service's section of the configuration file *)
  config : gmap string string
}.

(** The remote calls a run performs, in order. *)
Inductive call :=
| SearchIssues (q : string)
| FetchComments (k : string).

(** A run of the generator [issues] consumed to its end: the remote calls
    made, the issues yielded, and the exception that ended it, if any. *)
Record run := {
  calls : list call;
  yielded : list JiraIssue;
  failure : option exn
}.

(** Modelled from the spec: [IssueService.get_issue_for_record] belongs to
    the service base class, whose module is not among the sources. The
    adapter hands the raw payload to the normaliser: the issue has that
    payload, the origin of the service, and no metadata yet. *)
Definition get_issue_for_record (svc : JiraService) (rec : dict) : JiraIssue :=
  {| record := rec; origin := service_origin svc; extra := ∅ |}.

(** Modelled from the spec: [Issue.update_extra] belongs to the issue base
    class, whose module is not among the sources. The metadata supplied by
    the adapter is merged into the issue's metadata, a new entry replacing
    an old one with the same key. *)
Definition update_extra (issue : JiraIssue) (new : dict) : JiraIssue :=
  {| record := record issue; origin := origin issue; extra := new ∪ extra issue |}.

Section Service.
Context `{PyRepr} `{Jinja2} `{Environment}.

(** [annotations(issue, issue_obj)]: fetch the comments of the case and
    format them; the issue's url is computed only when there are some. *)
Definition annotations (issue : Case) (issue_obj : JiraIssue) : res (list string) :=
  cs ← comments (key issue);
  match cs with
  | [] => Ok []
  | _ =>
      issue_url ← get_url issue_obj;
      Ok (build_annotations ((fun c => (author_name c, body c)) <$> cs)
            (get_processed_url issue_url))
  end.

Definition stop (st : run) (e : exn) : run :=
  {| calls := calls st; yielded := yielded st; failure := Some e |}.

Definition log (st : run) (c : call) : run :=
  {| calls := calls st ++ [c]; yielded := yielded st; failure := failure st |}.

Definition yield (st : run) (issue : JiraIssue) : run :=
  {| calls := calls st; yielded := yielded st ++ [issue]; failure := failure st |}.

(** The [for case in cases] loop, threading the run so far. The call of
    [annotations] is the one place that reaches the comments endpoint. *)
Fixpoint issues_loop (svc : JiraService) (jira_version : Z) (cases : list Case)
    (st : run) : run :=
  match cases with
  | [] => st
  | case :: rest =>
      let issue := get_issue_for_record svc (raw case) in
      let extra := {[ "jira_version" := VInt jira_version ]} in
      if (jira_version >? 4)%Z then
        let st := log st (FetchComments (key case)) in
        match annotations case issue with
        | Raise e => stop st e
        | Ok anns =>
            let extra := <["annotations" := VList (VStr <$> anns)]> extra in
            issues_loop svc jira_version rest (yield st (update_extra issue extra))
        end
      else
        issues_loop svc jira_version rest (yield st (update_extra issue extra))
  end.

(** The schema version [issues] works with. *)
Definition configured_version (svc : JiraService) : res Z :=
  let jira_version := 5%Z in
  match config svc !! "jira.version" with
  | Some text => getint text
  | None => Ok jira_version
  end.

Definition issues (svc : JiraService) : run :=
  let st := log {| calls := []; yielded := []; failure := None |} (SearchIssues (query svc)) in
  match search_issues (query svc) with
  | Raise e => stop st e
  | Ok cases =>
      match configured_version svc with
      | Raise e => stop st e
      | Ok jira_version => issues_loop svc jira_version cases st
      end
  end.

End Service.

(** ** Concrete parameters and payloads, to run the model on *)

Module Sample.

Definition repr : PyRepr := fun _ => "<object>".

(** A template engine that knows the one-variable template and prints
    any other source as literal text. *)
Definition jinja : Jinja2 := {|
  template := string;
  Template := fun source => Ok source;
  render := fun t context =>
    if String.eqb t "{{label}}"
    then Ok (match context !! "label" with
             | Some v => @py_str repr v
             | None => EmptyString
             end)
    else Ok t
|}.

Definition jira_origin : Origin := {|
  url := "https://jira.example.com";
  default_priority := VStr "M";
  import_labels_as_tags := true;
  label_template := "{{label}}"
|}.

Definition fields : dict :=
  dict_display
    [ ("created", VStr "2016-06-06T06:07:08.123-0700");
      ("summary", VStr "lkjaldsfjaldf");
      ("labels", VList [VStr "feature"; VStr "bug"]);
      ("priority", VDict {[ "name" := VStr "Blocker" ]});
      ("timeestimate", VInt 18000);
      ("fixVersions", VList [VDict {[ "name" := VStr "1.2.3" ]}]) ].

Definition payload : dict :=
  dict_display [ ("key", VStr "DONUT-10"); ("fields", VDict fields) ].

(** A payload with nothing but the mandatory fields. *)
Definition bare_payload : dict :=
  dict_display
    [ ("key", VStr "DONUT-11");
      ("fields", VDict (dict_display
         [ ("created", VStr "2016-06-06T06:07:08.123-0700");
           ("summary", VStr "a bare issue") ])) ].

Definition issue (rec extra : dict) : JiraIssue :=
  {| record := rec; origin := jira_origin; extra := extra |}.

Definition env : Environment := {|
  search_issues := fun _ =>
    Ok [ {| key := "DONUT-10"; raw := payload |};
         {| key := "DONUT-11"; raw := bare_payload |} ];
  comments := fun k =>
    if String.eqb k "DONUT-10"
    then Ok [ {| author_name := "alice"; body := "looks good" |} ]
    else Ok [];
  getint := fun text =>
    if String.eqb text "4" then Ok 4%Z
    else if String.eqb text "5" then Ok 5%Z
    else Raise ValueError;
  build_annotations := fun notes _ =>
    (fun note => "@" +:+ note.1 +:+ " - " +:+ note.2) <$> notes;
  get_processed_url := fun u => u
|}.

Definition service (cfg : gmap string string) : JiraService :=
  {| service_origin := jira_origin; query := "assignee=me AND resolution is null";
     config := cfg |}.

End Sample.

(** ** The specification's reading of fix-version extraction *)

(** The name of the first entry of [fields.fixVersions] when there is such
    an entry and it has a name, and null in every other case. *)
Definition first_fix_version_name (rec : dict) : pyval :=
  match rec !! "fields" with
  | Some (VDict fields) =>
      match fields !! "fixVersions" with
      | Some (VList (VDict first :: _)) => default VNone (first !! "name")
      | _ => VNone
      end
  | _ => VNone
  end.

(** ** The field set of a canonical record *)

Definition record_keys : gset string :=
  {[ "project"; "priority"; "annotations"; "tags"; "entry"; "jiraurl";
     "jiraid"; "jiradescription"; "jirasummary"; "jiraestimate";
     "jirafixversion" ]}.

(** The float 5.0. *)
Definition five_hours : spec_float := S754_finite false 5629499534213120 (-50).

(** ** Reading the creation date *)

(** [txt] is a run of decimal digits and [n] is its value. *)
Definition reads (txt : string) (n : N) : Prop :=
  forallb is_digit (list_ascii_of_string txt) = true
  /\ int_of_digits (list_ascii_of_string txt) = n.

(** [txt] does not start with the digit zero. *)
Definition no_leading_zero (txt : string) : Prop :=
  forall rest, txt <> String "0" rest.

(** The creation timestamp of a payload. *)
Definition created_at (rec : dict) : option pyval :=
  match rec !! "fields" with
  | Some (VDict fields) => fields !! "created"
  | _ => None
  end.

(** ** Laws of the libraries *)

(** What Jinja2 documents of the one-variable template: it compiles, and
    rendering it prints the text bound to [label]. *)
Definition renders_label `{Jinja2} : Prop :=
  exists t, Template "{{label}}" = Ok t
            /\ forall (context : dict) (s : string),
                 context !! "label" = Some (VStr s) -> render t context = Ok s.

(** ** What a run yields *)

(** The issue yielded for a case when no annotations are attached. *)
Definition plain_issue (svc : JiraService) (jira_version : Z) (case : Case) : JiraIssue :=
  update_extra (get_issue_for_record svc (raw case))
    {[ "jira_version" := VInt jira_version ]}.

(** [issue] is what a run yields for [case] after fetching its comments. *)
Definition annotated `{Environment} (svc : JiraService) (jira_version : Z)
    (case : Case) (issue : JiraIssue) : Prop :=
  exists anns,
    annotations case (get_issue_for_record svc (raw case)) = Ok anns
    /\ issue = update_extra (get_issue_for_record svc (raw case))
                 (<["annotations" := VList (VStr <$> anns)]>
                    {[ "jira_version" := VInt jira_version ]}).

(** ** The remaining methods of the module *)

(** [c in s] for a character. *)
Fixpoint occurs (c : ascii) (s : string) : bool :=
  match s with
  | EmptyString => false
  | String c' s' => Ascii.eqb c' c || occurs c s'
  end.

(** [Issue.build_default_description], a method of the issue base class:
    it formats a title, a url, a number and a kind into one line. *)
Class IssueBase := build_default_description : pyval -> string -> pyval -> string -> string.

Section Description.
Context `{IssueBase} `{Environment}.

(** The keyword arguments are evaluated in the order they are written. *)
Definition get_default_description (self : JiraIssue) : res string :=
  title ← get_summary self;
  issue_url ← get_url self;
  number ← get_number self;
  Ok (build_default_description title (get_processed_url issue_url) number "issue").

End Description.

(** The configuration object, as far as the class methods of the service
    use it: [config.has_option(section, option)] and
    [config.get(section, option)], which raises when the option is not
    there. *)
Record ConfigParser := {
  has_option : string -> string -> bool;
  config_get : string -> string -> option string
}.

(** [IssueService._get_key], a class method of the service base class: the
    name of an option of this service in the configuration file. *)
Class ServiceBase := get_key : string -> string.

(** ["jira://%s@%s" % (username, base_uri)]; no result when [config.get]
    raises. *)
Definition get_keyring_service `{ServiceBase} (config : ConfigParser) (section : string)
    : option string :=
  username ← config_get config section (get_key "username");
  base_uri ← config_get config section (get_key "base_uri");
  Some ("jira://" +:+ username +:+ "@" +:+ base_uri).

(** How [validate_config] ends: in [die], or in the validation of the base
    class. *)
Inductive validation :=
| Died (message : string)
| Delegated.

(** Modelled from the spec: [die] belongs to [bugwarrior.config], which is
    not among the sources. A configuration error is fatal and is surfaced
    immediately with a descriptive message: [die] ends the validation with
    its message. *)
Definition die (message : string) : validation := Died message.

(** The loop of [validate_config] over the options it requires. *)
Fixpoint require_options (config : ConfigParser) (target : string)
    (options : list string) : validation :=
  match options with
  | [] => Delegated
  | option :: rest =>
      if negb (has_option config target option)
      then die ("[" +:+ target +:+ "] has no '" +:+ option +:+ "'")
      else require_options config target rest
  end.

Definition validate_config (config : ConfigParser) (target : string) : validation :=
  require_options config target ["jira.username"; "jira.password"; "jira.base_uri"].

(** ** Timestamps, character by character *)

(** [YYYY-MM-DDTHH:MM:SS.fraction] followed by an offset. *)
Definition jira_timestamp (y1 y2 y3 y4 m1 m2 d1 d2 h1 h2 n1 n2 s1 s2 : ascii)
    (fraction offset : string) : string :=
  String y1 (String y2 (String y3 (String y4 (String "-"
  (String m1 (String m2 (String "-"
  (String d1 (String d2 (String "T"
  (String h1 (String h2 (String ":"
  (String n1 (String n2 (String ":"
  (String s1 (String s2 (String "." (fraction +:+ offset)))))))))))))))))))).

(** [s.lstrip('0')]: [s] without its leading zeros. *)
Fixpoint lstrip_zeros (s : string) : string :=
  match s with
  | String c s' => if Ascii.eqb c "0" then lstrip_zeros s' else s
  | EmptyString => EmptyString
  end.

(** A year and [MMDDTHHMMSS] followed by an offset. *)
Definition taskwarrior_timestamp (year_digits : string)
    (m1 m2 d1 d2 h1 h2 n1 n2 s1 s2 : ascii) (offset : string) : string :=
  year_digits +:+
  String m1 (String m2
  (String d1 (String d2 (String "T"
  (String h1 (String h2
  (String n1 (String n2
  (String s1 (String s2 offset)))))))))).

(** ** Runs of [issues] *)

(** The comments calls of a run, for the cases it reached. *)
Definition fetches (cases : list Case) : list call :=
  (fun case => FetchComments (key case)) <$> cases.

(** ** More concrete parameters *)

(** A template engine in which the template ["{{label}}"] rejects the
    label ["bug"]. *)
Definition strict_jinja : Jinja2 := {|
  template := string;
  Template := fun source => Ok source;
  render := fun t context =>
    match context !! "label" with
    | Some (VStr "bug") => Raise TemplateError
    | Some (VStr s) => Ok s
    | _ => Ok EmptyString
    end
|}.

(** A one-line description in the style of the base class. *)
Definition plain_description : IssueBase := fun title issue_url number cls =>
  "(bw)" +:+ cls +:+ "#" +:+ @py_str Sample.repr number +:+ " - "
  +:+ @py_str Sample.repr title +:+ " .. " +:+ issue_url.

(** Option names with the prefix of the service. *)
Definition jira_keys : ServiceBase := fun name => "jira." +:+ name.

(** A configuration with one section, [target], holding the given
    options. *)
Definition one_section (target : string) (options : gmap string string) : ConfigParser := {|
  has_option := fun section option =>
    String.eqb section target && bool_decide (is_Some (options !! option));
  config_get := fun section option =>
    if String.eqb section target then options !! option else None
|}.

(** * Properties *)

(** ** The model at work *)

Example strptime_sample :
  strptime "2016-06-06T06:07:08.123" = Ok (mk_datetime 2016 6 6 6 7 8 123000).
Proof. reflexivity. Qed.

Example strptime_short_fields :
  strptime "2016-6-6t6:7:8.5" = Ok (mk_datetime 2016 6 6 6 7 8 500000).
Proof. reflexivity. Qed.

Example strptime_rejects :
  strptime "2015-02-29T00:00:00.0" = Raise ValueError
  /\ strptime "2016-06-06T06:07:60.0" = Raise ValueError
  /\ strptime "2016-06-06T06:07:08" = Raise ValueError
  /\ strptime "2016-06-06T06:07:08.1234567" = Raise ValueError
  /\ strptime "0000-06-06T06:07:08.0" = Raise ValueError
  /\ strptime "" = Raise ValueError.
Proof. repeat split; reflexivity. Qed.

Example sample_to_taskwarrior :
  @to_taskwarrior Sample.repr Sample.jinja (Sample.issue Sample.payload ∅)
  = Ok (dict_display
          [ ("project", VStr "DONUT");
            ("priority", VStr "H");
            ("annotations", VList []);
            ("tags", VList [VStr "feature"; VStr "bug"]);
            ("entry", VStr "20160606T060708-0700");
            ("jiraurl", VStr "https://jira.example.com/browse/DONUT-10");
            ("jiraid", VStr "DONUT-10");
            ("jiradescription", VNone);
            ("jirasummary", VStr "lkjaldsfjaldf");
            ("jiraestimate", VFloat (S754_finite false 5629499534213120 (-50)));
            ("jirafixversion", VStr "1.2.3") ]).
Proof. reflexivity. Qed.

(** ** Results and binds *)

Lemma bind_Ok {A B} (m : res A) (f : A -> res B) (b : B) :
  m ≫= f = Ok b -> exists a, m = Ok a /\ f a = Ok b.
Proof. destruct m as [a|e]; simpl; [eauto | discriminate]. Qed.

(** Invert every bind of a hypothesis that states a successful result. *)
Ltac invert_binds :=
  repeat match goal with
         | Hb : _ ≫= _ = Ok _ |- _ =>
             let a := fresh "v" in
             let Ha := fresh "Hv" in
             apply bind_Ok in Hb; destruct Hb as (a & Ha & Hb)
         | Hb : (let _ := _ in _) = Ok _ |- _ => cbv zeta in Hb
         end.

Lemma getitem_Some (d : dict) (k : string) (v : pyval) :
  d !! k = Some v -> getitem d k = Ok v.
Proof. unfold getitem. intros ->. reflexivity. Qed.

Lemma getitem_None (d : dict) (k : string) :
  d !! k = None -> getitem d k = Raise KeyError.
Proof. unfold getitem. intros ->. reflexivity. Qed.

(** ** The unique key *)

Section UniqueKey.
Context `{PyRepr} `{Jinja2}.

Lemma get_url_of_key (self : JiraIssue) (k : string) :
  record self !! "key" = Some (VStr k) ->
  get_url self = Ok (url (origin self) +:+ "/browse/" +:+ k).
Proof. intros Hk. unfold get_url. rewrite (getitem_Some _ _ _ Hk). reflexivity. Qed.

(** A successful [to_taskwarrior] is the dict display of its getters'
    results. *)
Lemma to_taskwarrior_Ok (self : JiraIssue) (rec : dict) :
  to_taskwarrior self = Ok rec ->
  exists project priority tags entry u jiraid description summary estimate version,
    (get_project self = Ok project /\ get_priority self = Ok priority
     /\ get_tags self = Ok tags /\ get_entry self = Ok entry)
    /\ (get_url self = Ok u /\ getitem (record self) "key" = Ok jiraid
        /\ method_get (dict_get (record self) "fields" (VDict ∅)) "description" VNone
           = Ok description)
    /\ (get_summary self = Ok summary /\ get_estimate self = Ok estimate
        /\ get_fix_version self = Ok version)
    /\ rec = dict_display
               [ ("project", project); ("priority", priority);
                 ("annotations", get_annotations self);
                 ("tags", VList (VStr <$> tags)); ("entry", VStr entry);
                 (URL, VStr u); (FOREIGN_ID, jiraid);
                 (DESCRIPTION, description); (SUMMARY, summary);
                 (ESTIMATE, estimate); (FIX_VERSION, version) ].
Proof.
  unfold to_taskwarrior. intros Hrec. invert_binds.
  injection Hrec as Hrec. subst rec.
  do 10 eexists. repeat split; eassumption.
Qed.

Lemma to_taskwarrior_url (self : JiraIssue) (rec : dict) :
  to_taskwarrior self = Ok rec ->
  exists u, get_url self = Ok u /\ rec !! URL = Some (VStr u).
Proof.
  intros Hrec. apply to_taskwarrior_Ok in Hrec.
  destruct Hrec as (? & ? & ? & ? & u & ? & ? & ? & ? & ? & _ & (Hu & _) & _ & ->).
  exists u. split; [exact Hu | cbn; reflexivity].
Qed.

(** C1. For a fixed origin and payloads that carry a string [key], the
    unique key (the [jiraurl] field, computed by [get_url]) exists, is the
    same whenever the payload is the same (whatever metadata comes with
    it), is what the normaliser stores under its unique-key field, and two
    payloads have equal unique keys if and only if their keys are equal. *)
Theorem unique_key_stable_and_injective (o : Origin) (r1 r2 e1 e2 : dict)
    (k1 k2 : string) :
  r1 !! "key" = Some (VStr k1) ->
  r2 !! "key" = Some (VStr k2) ->
  let a := {| record := r1; origin := o; extra := e1 |} in
  let b := {| record := r2; origin := o; extra := e2 |} in
  (exists ua ub, get_url a = Ok ua /\ get_url b = Ok ub /\ (ua = ub <-> k1 = k2))
  /\ (forall e, get_url {| record := r1; origin := o; extra := e |} = get_url a)
  /\ (forall rec, to_taskwarrior a = Ok rec ->
        exists ua, get_url a = Ok ua
                   /\ (fun f => rec !! f) <$> UNIQUE_KEY = [Some (VStr ua)]).
Proof.
  intros Hk1 Hk2 a b. split; [| split].
  - exists (url o +:+ "/browse/" +:+ k1), (url o +:+ "/browse/" +:+ k2).
    split; [exact (get_url_of_key a k1 Hk1) |].
    split; [exact (get_url_of_key b k2 Hk2) |].
    split; [| congruence].
    intros Heq. apply (inj (String.app (url o))) in Heq.
    apply (inj (String.app "/browse/")) in Heq. exact Heq.
  - intros e. unfold get_url. reflexivity.
  - intros rec Hrec. destruct (to_taskwarrior_url a rec Hrec) as (u & Hu & Hrecu).
    exists u. split; [exact Hu |]. simpl. rewrite Hrecu. reflexivity.
Qed.

End UniqueKey.

(** ** Tags, when labels are not imported *)

Section TagsDisabled.
Context `{Jinja2}.

(** C8. When [import_labels_as_tags] is false, [get_tags] returns the
    empty list, whatever the payload and the label template are. *)
Theorem get_tags_disabled (self : JiraIssue) :
  import_labels_as_tags (origin self) = false ->
  get_tags self = Ok [].
Proof. intros Hoff. unfold get_tags. rewrite Hoff. reflexivity. Qed.

End TagsDisabled.

(** ** Fix version *)

Lemma get_fix_version_Ok (self : JiraIssue) :
  get_fix_version self = Ok (first_fix_version_name (record self)).
Proof.
  unfold get_fix_version, first_fix_version_name, getitem.
  destruct (record self !! "fields") as [fields|]; [| reflexivity].
  destruct fields as [| | | | |l|d]; try reflexivity.
  simpl. destruct (d !! "fixVersions") as [versions|]; [| reflexivity].
  destruct versions as [| | | |s|l|d']; try reflexivity.
  - destruct s; reflexivity.
  - destruct l as [|first rest]; [reflexivity |].
    destruct first; reflexivity.
Qed.

(** C5. [get_fix_version] never raises: it returns the name of the first
    entry of [fields.fixVersions] when that entry exists and has a name,
    and null on every structural failure (no [fields], no [fixVersions],
    a null or wrongly typed container, an empty list, an entry that is no
    mapping or has no name). *)
Theorem get_fix_version_total (self : JiraIssue) :
  get_fix_version self = Ok (first_fix_version_name (record self))
  /\ (forall fields first rest name,
        record self !! "fields" = Some (VDict fields) ->
        fields !! "fixVersions" = Some (VList (VDict first :: rest)) ->
        first !! "name" = Some name ->
        get_fix_version self = Ok name)
  /\ (forall fields,
        record self !! "fields" = Some (VDict fields) ->
        fields !! "fixVersions" = None
        \/ fields !! "fixVersions" = Some VNone
        \/ fields !! "fixVersions" = Some (VList []) ->
        get_fix_version self = Ok VNone).
Proof.
  split; [apply get_fix_version_Ok | split].
  - intros fields first rest name Hf Hv Hn.
    rewrite get_fix_version_Ok. unfold first_fix_version_name.
    rewrite Hf, Hv, Hn. reflexivity.
  - intros fields Hf Hv.
    rewrite get_fix_version_Ok. unfold first_fix_version_name. rewrite Hf.
    destruct Hv as [-> | [-> | ->]]; reflexivity.
Qed.

Example fix_version_empty_list :
  get_fix_version (Sample.issue {[ "fields" := VDict {[ "fixVersions" := VList [] ]} ]} ∅)
  = Ok VNone.
Proof. reflexivity. Qed.

Example fix_version_missing_key :
  get_fix_version (Sample.issue {[ "fields" := VDict ∅ ]} ∅) = Ok VNone.
Proof. reflexivity. Qed.

Example fix_version_null_container :
  get_fix_version (Sample.issue {[ "fields" := VDict {[ "fixVersions" := VNone ]} ]} ∅)
  = Ok VNone.
Proof. reflexivity. Qed.

Example fix_version_first_name :
  get_fix_version (Sample.issue Sample.payload ∅) = Ok (VStr "1.2.3").
Proof. reflexivity. Qed.

(** ** Estimate *)

Lemma truediv_60_raises (x : pyval) (e : exn) :
  truediv x (VInt 60) = Raise e -> e = TypeError \/ e = OverflowError.
Proof.
  unfold truediv. destruct (as_number x) as [[z|f]|] eqn:Hx; simpl.
  - unfold int_truediv. simpl.
    destruct (SFdiv prec emax (exact_of_Z z) (S754_finite false 60 0));
      intros Hr; first [discriminate Hr | injection Hr as <-; auto].
  - discriminate.
  - intros Hr. injection Hr as <-. auto.
Qed.

(** Current schema: the [except] clause absorbs every missing key and
    type error, so the only exception left is the overflow of a division
    of an integer too large for a float. *)
Lemma get_estimate_current_absorbs (self : JiraIssue) (e : exn) :
  eq_int (dict_get (extra self) "jira_version" VNone) 4 = false ->
  get_estimate self = Raise e -> e = OverflowError.
Proof.
  intros Hv. unfold get_estimate. rewrite Hv.
  assert (Hbody : forall e',
    (fields ← getitem (record self) "fields";
     timeestimate ← subscript_str fields "timeestimate";
     minutes ← truediv timeestimate (VInt 60);
     truediv minutes (VInt 60)) = Raise e' ->
    e' = TypeError \/ e' = KeyError \/ e' = OverflowError).
  { intros e'. unfold getitem.
    destruct (record self !! "fields") as [fields|]; simpl;
      [| intros [= <-]; auto].
    destruct fields; simpl; try (intros [= <-]; auto).
    unfold getitem.
    destruct (d !! "timeestimate") as [t|]; simpl; [| intros [= <-]; auto].
    destruct (truediv t (VInt 60)) as [m|e1] eqn:H1; simpl.
    - intros H2. apply truediv_60_raises in H2. tauto.
    - intros [= <-]. apply truediv_60_raises in H1. tauto. }
  unfold try_except.
  destruct (_ ≫= _) as [v|e'] eqn:Hb; [discriminate |].
  destruct (Hbody e' eq_refl) as [-> | [-> | ->]]; simpl.
  - discriminate.
  - discriminate.
  - intros [= <-]. reflexivity.
Qed.

(** Current schema, missing key: no [fields], or no [timeestimate]. *)
Lemma get_estimate_current_missing (self : JiraIssue) :
  eq_int (dict_get (extra self) "jira_version" VNone) 4 = false ->
  (record self !! "fields" = None
   \/ exists fields, record self !! "fields" = Some (VDict fields)
                     /\ fields !! "timeestimate" = None) ->
  get_estimate self = Ok VNone.
Proof.
  intros Hv Hmiss. unfold get_estimate, getitem. rewrite Hv.
  destruct Hmiss as [-> | (fields & -> & Ht)]; [reflexivity |].
  simpl. unfold getitem. rewrite Ht. reflexivity.
Qed.

(** Current schema, type error: [fields] is no mapping, or the estimate is
    no number. *)
Lemma get_estimate_current_type_error (self : JiraIssue) (fields : pyval) :
  eq_int (dict_get (extra self) "jira_version" VNone) 4 = false ->
  record self !! "fields" = Some fields ->
  match fields with
  | VDict d => exists t, d !! "timeestimate" = Some t /\ as_number t = None
  | _ => True
  end ->
  get_estimate self = Ok VNone.
Proof.
  intros Hv Hf Hshape. unfold get_estimate, getitem. rewrite Hv, Hf.
  destruct fields; try reflexivity.
  destruct Hshape as (t & Ht & Hnum). simpl. unfold getitem. rewrite Ht. simpl.
  unfold truediv. rewrite Hnum. reflexivity.
Qed.


Example estimate_legacy_five :
  get_estimate
    (Sample.issue {[ "fields" := VDict {[ "timeestimate" := VDict {[ "value" := VInt 5 ]} ]} ]}
                  {[ "jira_version" := VInt 4 ]})
  = Ok (VInt 5).
Proof. reflexivity. Qed.

Example estimate_current_five_hours :
  get_estimate
    (Sample.issue {[ "fields" := VDict {[ "timeestimate" := VInt 18000 ]} ]}
                  {[ "jira_version" := VInt 5 ]})
  = Ok (VFloat five_hours)
  /\ float_of_Z 5 = Ok five_hours.
Proof. split; reflexivity. Qed.

(** C4. The claim asks that any missing key or type error yields null under
    every schema version. Under the legacy schema (version 4) the
    extraction returns before the [try] statement: a payload without
    [timeestimate] raises [KeyError], one whose [timeestimate] is null
    raises [TypeError], and one whose wrapper has no [value] raises
    [KeyError]. *)
Theorem get_estimate_legacy_raises :
  let legacy : dict := {[ "jira_version" := VInt 4 ]} in
  let payload (fields : dict) : dict :=
    dict_display [ ("key", VStr "DONUT-10"); ("fields", VDict fields) ] in
  get_estimate (Sample.issue (payload ∅) legacy) = Raise KeyError
  /\ get_estimate (Sample.issue (payload {[ "timeestimate" := VNone ]}) legacy)
     = Raise TypeError
  /\ get_estimate (Sample.issue (payload {[ "timeestimate" := VDict ∅ ]}) legacy)
     = Raise KeyError.
Proof. repeat split; reflexivity. Qed.

(** ** Priority *)

Section Priority.
Context `{PyRepr}.

(** A priority that is not a mapping is turned into text and looked up:
    the [except] clause absorbs the failed [value['name']]. *)
Lemma get_priority_not_composite (self : JiraIssue) (fields : dict) (value : pyval) :
  record self !! "fields" = Some (VDict fields) ->
  default VNone (fields !! "priority") = value ->
  (forall d, value <> VDict d) ->
  get_priority self
  = Ok (default (default_priority (origin self)) (PRIORITY_MAP !! py_str value)).
Proof.
  intros Hf Hvalue Hshape. unfold get_priority.
  rewrite (getitem_Some _ _ _ Hf). simpl. rewrite Hvalue.
  destruct value; try reflexivity.
  exfalso. eapply Hshape. reflexivity.
Qed.

(** A mapping with a [name] is looked up by that name. *)
Lemma get_priority_composite (self : JiraIssue) (fields d : dict) (name : pyval) :
  record self !! "fields" = Some (VDict fields) ->
  fields !! "priority" = Some (VDict d) ->
  d !! "name" = Some name ->
  get_priority self = dict_get_value PRIORITY_MAP name (default_priority (origin self)).
Proof.
  intros Hf Hp Hn. unfold get_priority.
  rewrite (getitem_Some _ _ _ Hf). simpl. rewrite Hp. simpl.
  rewrite (getitem_Some _ _ _ Hn). reflexivity.
Qed.

(** C2, as the code has it. For a payload with a [fields] mapping whose
    priority is absent, null, a bare string not in the table, or a mapping
    whose [name] is a string not in the table or another hashable value,
    [get_priority] returns the origin's default priority. Only the
    [TypeError] of the name extraction is absorbed: a mapping without
    [name] raises [KeyError], and one whose [name] is a list or a mapping
    raises [TypeError]. *)
Theorem get_priority_default (self : JiraIssue) (fields : dict) :
  record self !! "fields" = Some (VDict fields) ->
  let dflt := default_priority (origin self) in
  (fields !! "priority" = None \/ fields !! "priority" = Some VNone ->
   get_priority self = Ok dflt)
  /\ (forall s, fields !! "priority" = Some (VStr s) ->
        PRIORITY_MAP !! s = None -> get_priority self = Ok dflt)
  /\ (forall d name, fields !! "priority" = Some (VDict d) ->
        d !! "name" = Some name ->
        match name with
        | VStr s => PRIORITY_MAP !! s = None -> get_priority self = Ok dflt
        | VList _ | VDict _ => get_priority self = Raise TypeError
        | _ => get_priority self = Ok dflt
        end)
  /\ (forall d, fields !! "priority" = Some (VDict d) ->
        d !! "name" = None -> get_priority self = Raise KeyError).
Proof.
  intros Hf dflt. split; [| split; [| split]].
  - intros Hp.
    rewrite (get_priority_not_composite self fields VNone Hf).
    + reflexivity.
    + destruct Hp as [-> | ->]; reflexivity.
    + discriminate.
  - intros s Hp Hs.
    rewrite (get_priority_not_composite self fields (VStr s) Hf).
    + simpl. rewrite Hs. reflexivity.
    + rewrite Hp. reflexivity.
    + discriminate.
  - intros d name Hp Hn.
    rewrite (get_priority_composite self fields d name Hf Hp Hn).
    destruct name; try reflexivity.
    intros Hs. simpl. rewrite Hs. reflexivity.
  - intros d Hp Hn. unfold get_priority.
    rewrite (getitem_Some _ _ _ Hf). simpl. rewrite Hp. simpl.
    rewrite (getitem_None _ _ Hn). reflexivity.
Qed.

End Priority.

Example priority_blocker :
  @get_priority Sample.repr (Sample.issue Sample.payload ∅) = Ok (VStr "H").
Proof. reflexivity. Qed.

(** C2, as stated, fails: a composite priority whose name is a list is not
    in the table, and one without a name is an input shape too; on both the
    lookup raises instead of returning the default priority. *)
Lemma get_priority_composite_raises :
  let unhashable : dict := {[ "fields" := VDict {[ "priority" := VDict {[ "name" := VList [] ]} ]} ]} in
  let nameless : dict := {[ "fields" := VDict {[ "priority" := VDict ∅ ]} ]} in
  @get_priority Sample.repr (Sample.issue unhashable ∅) = Raise TypeError
  /\ @get_priority Sample.repr (Sample.issue nameless ∅) = Raise KeyError
  /\ @get_priority Sample.repr (Sample.issue unhashable ∅)
     <> Ok (default_priority Sample.jira_origin)
  /\ @get_priority Sample.repr (Sample.issue nameless ∅)
     <> Ok (default_priority Sample.jira_origin).
Proof. repeat split; first [reflexivity | discriminate]. Qed.

Lemma get_priority_default_witness :
  let self := Sample.issue {[ "fields" := VDict {[ "priority" := VStr "Urgent" ]} ]} ∅ in
  record self !! "fields" = Some (VDict {[ "priority" := VStr "Urgent" ]})
  /\ @get_priority Sample.repr self = Ok (VStr "M").
Proof.
  intros self. split; [reflexivity |].
  destruct (@get_priority_default Sample.repr self {[ "priority" := VStr "Urgent" ]})
    as (_ & Hbare & _); [reflexivity |].
  apply (Hbare "Urgent"); reflexivity.
Defined.

(** ** The field set *)

Section FieldSet.
Context `{PyRepr} `{Jinja2}.

(** C3. Whenever [to_taskwarrior] succeeds, the record has exactly the
    eleven keys project, priority, annotations, tags, entry, jiraurl,
    jiraid, jiradescription, jirasummary, jiraestimate and jirafixversion;
    missing source data sits under its key as a default: a missing
    description or fix version as null, missing annotations as the empty
    list. *)
Theorem to_taskwarrior_fixed_keys (self : JiraIssue) (rec : dict) :
  to_taskwarrior self = Ok rec ->
  dom rec = record_keys
  /\ size rec = 11
  /\ rec !! "jirafixversion" = Some (first_fix_version_name (record self))
  /\ rec !! "annotations" = Some (default (VList []) (extra self !! "annotations"))
  /\ (forall fields, record self !! "fields" = Some (VDict fields) ->
        rec !! "jiradescription" = Some (default VNone (fields !! "description"))).
Proof.
  intros Hrec. apply to_taskwarrior_Ok in Hrec.
  destruct Hrec as (project & priority & tags & entry & u & jiraid & description
                    & summary & estimate & version & _ & (_ & _ & Hd) & (_ & _ & Hv) & ->).
  rewrite get_fix_version_Ok in Hv. injection Hv as <-.
  unfold dict_display, URL, FOREIGN_ID, DESCRIPTION, SUMMARY, ESTIMATE, FIX_VERSION.
  cbn [foldl fst snd].
  match goal with |- dom ?m = _ /\ _ => assert (Hdom : dom m = record_keys) end.
  { rewrite !dom_insert_L, dom_empty_L. unfold record_keys. set_solver. }
  split; [exact Hdom | split; [| split; [| split]]].
  - rewrite <- size_dom, Hdom. reflexivity.
  - cbn. reflexivity.
  - cbn. reflexivity.
  - intros fields Hf. unfold dict_get in Hd. rewrite Hf in Hd. simpl in Hd.
    injection Hd as <-. cbn. reflexivity.
Qed.

End FieldSet.

Lemma to_taskwarrior_fixed_keys_witness :
  exists rec,
    @to_taskwarrior Sample.repr Sample.jinja (Sample.issue Sample.bare_payload ∅) = Ok rec
    /\ dom rec = record_keys
    /\ rec !! "jiradescription" = Some VNone
    /\ rec !! "jiraestimate" = Some VNone
    /\ rec !! "jirafixversion" = Some VNone.
Proof.
  eexists. split; [reflexivity |].
  split; [| repeat split; reflexivity].
  eapply (@to_taskwarrior_fixed_keys Sample.repr Sample.jinja
            (Sample.issue Sample.bare_payload ∅)).
  reflexivity.
Defined.

(** Every declared attribute but the creation date is a key of the record;
    [to_taskwarrior] stores nothing under [jiracreatedts]. *)
Remark udas_in_record :
  Forall (fun uda => uda.1 ∈ record_keys \/ uda.1 = CREATED_AT) UDAS
  /\ CREATED_AT ∉ record_keys.
Proof.
  split.
  - unfold UDAS, record_keys, CREATED_AT. repeat constructor; simpl;
      first [right; reflexivity | left; set_unfold; tauto].
  - unfold CREATED_AT, record_keys. set_unfold. intros Hin.
    repeat (destruct Hin as [Hin | Hin]; [| discriminate Hin]). discriminate Hin.
Qed.

(** ** Creation date *)

Lemma string_length_app (a b : string) :
  String.length (a +:+ b) = String.length a + String.length b.
Proof. induction a as [|c a IH]; simpl; [reflexivity | rewrite IH; reflexivity]. Qed.

Lemma substring_all (s : string) : substring 0 (String.length s) s = s.
Proof. induction s as [|c s IH]; simpl; [reflexivity | rewrite IH; reflexivity]. Qed.

Lemma substring_app_l (a b : string) : substring 0 (String.length a) (a +:+ b) = a.
Proof.
  induction a as [|c a IH]; simpl.
  - destruct b; reflexivity.
  - rewrite IH. reflexivity.
Qed.

Lemma substring_app_r (a b : string) :
  substring (String.length a) (String.length b) (a +:+ b) = b.
Proof. induction a as [|c a IH]; simpl; [apply substring_all | exact IH]. Qed.

Lemma substring_length (s : string) (n m : nat) :
  n + m <= String.length s -> String.length (substring n m s) = m.
Proof.
  revert n m. induction s as [|c s IH]; intros n m Hle; simpl in Hle.
  - assert (n = 0) as -> by lia. assert (m = 0) as -> by lia. reflexivity.
  - destruct n as [|n]; simpl.
    + destruct m as [|m]; simpl; [reflexivity |]. rewrite IH; [reflexivity | lia].
    + apply IH. lia.
Qed.

Lemma string_app_assoc (a b c : string) : (a +:+ b) +:+ c = a +:+ (b +:+ c).
Proof.
  induction a as [|x a IH]; [reflexivity |].
  change (String x ((a +:+ b) +:+ c) = String x (a +:+ (b +:+ c))).
  rewrite IH. reflexivity.
Qed.

(** The two slices of [get_entry] on a text that ends with a five
    character suffix. *)
Lemma slices_of_app (prefix tz : string) :
  String.length tz = 5 ->
  slice_to_minus5 (prefix +:+ tz) = prefix /\ slice_from_minus5 (prefix +:+ tz) = tz.
Proof.
  intros Htz. unfold slice_to_minus5, slice_from_minus5.
  rewrite string_length_app, Htz.
  replace (String.length prefix + 5 - 5) with (String.length prefix) by lia.
  split; [apply substring_app_l |].
  rewrite <- Htz. apply substring_app_r.
Qed.

(** A text that [strptime] accepts starts with four characters and a
    dash. *)
Lemma strptime_Ok_dash (s : string) (dt : datetime) :
  strptime s = Ok dt ->
  exists y1 y2 y3 y4 rest,
    s = String y1 (String y2 (String y3 (String y4 (String "-" rest)))).
Proof.
  unfold strptime, parse. intros Hs.
  destruct s as [|y1 [|y2 [|y3 [|y4 [|c rest]]]]]; try discriminate Hs.
  simpl in Hs.
  destruct (Ascii.eqb_spec c "-") as [-> | Hc].
  - do 5 eexists. reflexivity.
  - unfold lit_dash in Hs. rewrite (proj2 (Ascii.eqb_neq c "-") Hc) in Hs.
    rewrite !andb_false_r in Hs. discriminate Hs.
Qed.

Lemma digit_char_not_dash (n : N) : Ascii.eqb (digit_char n) "-" = false.
Proof.
  apply Ascii.eqb_neq. intros Heq.
  assert (Hlt : (n mod 10 < 10)%N) by (apply N.mod_lt; lia).
  assert (Hcode : N_of_ascii (digit_char n) = (48 + n mod 10)%N).
  { unfold digit_char. apply N_ascii_embedding. lia. }
  rewrite Heq in Hcode. change (N_of_ascii "-") with 45%N in Hcode.
  clear Hlt Heq. revert Hcode. generalize (n mod 10)%N. intros r Hr. lia.
Qed.

(** The output format has a digit where the input format has its first
    dash, so [strptime] rejects every output of [strftime]. *)
Lemma strptime_strftime (dt : datetime) : strptime (strftime dt) = Raise ValueError.
Proof.
  unfold strftime, year_text.
  destruct (year dt <? 10)%N; [| destruct (year dt <? 100)%N;
    [| destruct (year dt <? 1000)%N]];
    unfold strptime, parse, pad4, pad2; simpl;
    unfold lit_dash; rewrite digit_char_not_dash, !andb_false_r; reflexivity.
Qed.

(** *** Digits and their values *)

Lemma below_ten (r : N) :
  (r < 10)%N ->
  r = 0%N \/ r = 1%N \/ r = 2%N \/ r = 3%N \/ r = 4%N \/ r = 5%N \/ r = 6%N
  \/ r = 7%N \/ r = 8%N \/ r = 9%N.
Proof. lia. Qed.

(** The character of a digit value. *)
Lemma digit_of_value (r : N) :
  (r < 10)%N ->
  is_digit (ascii_of_N (48 + r)) = true
  /\ digit_val (ascii_of_N (48 + r)) = r
  /\ Ascii.eqb (ascii_of_N (48 + r)) "0" = (r =? 0)%N.
Proof.
  intros Hr. destruct (below_ten r Hr) as [-> | [-> | [-> | [-> | [-> | [-> | [-> | [-> | [-> | ->]]]]]]]]];
    repeat split; reflexivity.
Qed.

(** The value of a digit character, and what is no digit. *)
Lemma digit_facts (c : ascii) :
  is_digit c = true ->
  (digit_val c < 10)%N
  /\ ascii_of_N (48 + digit_val c) = c
  /\ lit_dash c = false /\ lit_T c = false /\ lit_colon c = false /\ lit_dot c = false.
Proof.
  destruct c as [[] [] [] [] [] [] [] []]; intros Hd; try discriminate Hd;
    repeat split; reflexivity.
Qed.

Lemma digit_val_lt (c : ascii) : (digit_val c < 10)%N.
Proof.
  unfold digit_val. destruct (is_digit c) eqn:Hc; [| lia].
  destruct (digit_facts c Hc) as (Hlt & _). unfold digit_val in Hlt.
  rewrite Hc in Hlt. exact Hlt.
Qed.

Lemma digit_char_units (q a : N) :
  (a < 10)%N -> digit_char (10 * q + a) = ascii_of_N (48 + a).
Proof.
  intros Ha. unfold digit_char. f_equal. f_equal.
  symmetry. apply (N.mod_unique _ 10 q a Ha). reflexivity.
Qed.

Lemma div_10_tens (q a : N) : (a < 10)%N -> ((10 * q + a) / 10)%N = q.
Proof. intros Ha. symmetry. apply (N.div_unique _ 10 q a Ha). reflexivity. Qed.

(** Every number is ten times its quotient plus a digit. *)
Lemma tens_and_units (n : N) : exists q r, n = (10 * q + r)%N /\ (r < 10)%N.
Proof.
  exists (n / 10)%N, (n mod 10)%N. split.
  - apply N.div_mod. discriminate.
  - apply N.mod_lt. discriminate.
Qed.

(** The four decimal digits of a year. *)
Lemma four_digits (y : N) :
  (y < 10000)%N ->
  exists r3 r2 r1 r0,
    y = (1000 * r3 + 100 * r2 + 10 * r1 + r0)%N
    /\ (r3 < 10)%N /\ (r2 < 10)%N /\ (r1 < 10)%N /\ (r0 < 10)%N.
Proof.
  intros Hy.
  destruct (tens_and_units y) as (q1 & r0 & -> & H0).
  destruct (tens_and_units q1) as (q2 & r1 & -> & H1).
  destruct (tens_and_units q2) as (q3 & r2 & -> & H2).
  exists q3, r2, r1, r0. repeat split; try assumption; lia.
Qed.

Lemma pad2_of_digits (r1 r0 : N) :
  (r1 < 10)%N -> (r0 < 10)%N ->
  pad2 (10 * r1 + r0)
  = String (ascii_of_N (48 + r1)) (String (ascii_of_N (48 + r0)) EmptyString).
Proof.
  intros H1 H0. unfold pad2.
  rewrite (div_10_tens _ _ H0), (digit_char_units _ _ H0).
  replace r1 with (10 * 0 + r1)%N at 1 by lia.
  rewrite (digit_char_units _ _ H1). reflexivity.
Qed.

Lemma pad4_of_digits (r3 r2 r1 r0 : N) :
  (r3 < 10)%N -> (r2 < 10)%N -> (r1 < 10)%N -> (r0 < 10)%N ->
  pad4 (1000 * r3 + 100 * r2 + 10 * r1 + r0)
  = String (ascii_of_N (48 + r3)) (String (ascii_of_N (48 + r2))
      (String (ascii_of_N (48 + r1)) (String (ascii_of_N (48 + r0)) EmptyString))).
Proof.
  intros H3 H2 H1 H0. unfold pad4.
  set (n := (1000 * r3 + 100 * r2 + 10 * r1 + r0)%N).
  assert (Hq2 : (n / 100)%N = (10 * r3 + r2)%N).
  { symmetry. apply (N.div_unique n 100 _ (10 * r1 + r0)%N); [lia | unfold n; lia]. }
  assert (Hq3 : (n / 1000)%N = (10 * 0 + r3)%N).
  { symmetry. apply (N.div_unique n 1000 _ (100 * r2 + 10 * r1 + r0)%N);
      [lia | unfold n; lia]. }
  rewrite Hq3, (digit_char_units _ _ H3), Hq2, (digit_char_units _ _ H2).
  unfold pad2.
  replace n with (10 * (10 * (10 * r3 + r2) + r1) + r0)%N by (unfold n; lia).
  rewrite (div_10_tens _ _ H0), (digit_char_units _ _ H0), (digit_char_units _ _ H1).
  reflexivity.
Qed.

(** [%Y] prints the digits of the year from its first one that is not
    zero. *)
Lemma year_text_of_digits (r3 r2 r1 r0 : N) :
  (r3 < 10)%N -> (r2 < 10)%N -> (r1 < 10)%N -> (r0 < 10)%N ->
  let c := fun r => ascii_of_N (48 + r) in
  year_text (1000 * r3 + 100 * r2 + 10 * r1 + r0)
  = if (r3 =? 0)%N
    then if (r2 =? 0)%N
         then if (r1 =? 0)%N
              then String (c r0) EmptyString
              else String (c r1) (String (c r0) EmptyString)
         else String (c r2) (String (c r1) (String (c r0) EmptyString))
    else String (c r3) (String (c r2) (String (c r1) (String (c r0) EmptyString))).
Proof.
  intros H3 H2 H1 H0 c. unfold year_text.
  destruct (N.eqb_spec r3 0) as [-> | N3].
  2:{ destruct (N.ltb_spec (1000 * r3 + 100 * r2 + 10 * r1 + r0) 10); [lia |].
      destruct (N.ltb_spec (1000 * r3 + 100 * r2 + 10 * r1 + r0) 100); [lia |].
      destruct (N.ltb_spec (1000 * r3 + 100 * r2 + 10 * r1 + r0) 1000); [lia |].
      apply pad4_of_digits; assumption. }
  destruct (N.eqb_spec r2 0) as [-> | N2].
  2:{ destruct (N.ltb_spec (1000 * 0 + 100 * r2 + 10 * r1 + r0) 10); [lia |].
      destruct (N.ltb_spec (1000 * 0 + 100 * r2 + 10 * r1 + r0) 100); [lia |].
      destruct (N.ltb_spec (1000 * 0 + 100 * r2 + 10 * r1 + r0) 1000); [| lia].
      pose proof (pad4_of_digits 0 r2 r1 r0 ltac:(lia) H2 H1 H0) as Hpad.
      unfold pad4, pad2 in Hpad. injection Hpad as _ Hc2 Hc1 Hc0.
      unfold pad2. rewrite Hc2, Hc1, Hc0. reflexivity. }
  destruct (N.eqb_spec r1 0) as [-> | N1].
  - destruct (N.ltb_spec (1000 * 0 + 100 * 0 + 10 * 0 + r0) 10); [| lia].
    replace (1000 * 0 + 100 * 0 + 10 * 0 + r0)%N with (10 * 0 + r0)%N by lia.
    rewrite (digit_char_units _ _ H0). reflexivity.
  - destruct (N.ltb_spec (1000 * 0 + 100 * 0 + 10 * r1 + r0) 10); [lia |].
    destruct (N.ltb_spec (1000 * 0 + 100 * 0 + 10 * r1 + r0) 100); [| lia].
    replace (1000 * 0 + 100 * 0 + 10 * r1 + r0)%N with (10 * r1 + r0)%N by lia.
    apply pad2_of_digits; assumption.
Qed.

Lemma reads_two (r1 r0 : N) :
  (r1 < 10)%N -> (r0 < 10)%N ->
  reads (String (ascii_of_N (48 + r1)) (String (ascii_of_N (48 + r0)) EmptyString))
        (10 * r1 + r0).
Proof.
  intros H1 H0.
  destruct (digit_of_value r1 H1) as (Hd1 & Hv1 & _).
  destruct (digit_of_value r0 H0) as (Hd0 & Hv0 & _).
  unfold reads, int_of_digits. cbn [list_ascii_of_string forallb foldl].
  rewrite Hd1, Hd0, Hv1, Hv0. split; [reflexivity | lia].
Qed.

(** A field below one hundred is printed as the two digits of its value. *)
Lemma reads_pad2 (n : N) :
  (n < 100)%N -> reads (pad2 n) n /\ String.length (pad2 n) = 2.
Proof.
  intros Hn. split; [| reflexivity].
  destruct (tens_and_units n) as (r1 & r0 & -> & H0).
  assert (H1 : (r1 < 10)%N) by lia.
  rewrite (pad2_of_digits r1 r0 H1 H0). apply reads_two; assumption.
Qed.

(** A year is printed as the digits of its value, the first one not zero. *)
Lemma reads_year_text (y : N) :
  (1 <= y)%N -> (y < 10000)%N ->
  reads (year_text y) y /\ no_leading_zero (year_text y).
Proof.
  intros Hpos Hy.
  destruct (four_digits y Hy) as (r3 & r2 & r1 & r0 & -> & H3 & H2 & H1 & H0).
  rewrite (year_text_of_digits r3 r2 r1 r0 H3 H2 H1 H0).
  destruct (digit_of_value r3 H3) as (Hd3 & Hv3 & Hz3).
  destruct (digit_of_value r2 H2) as (Hd2 & Hv2 & Hz2).
  destruct (digit_of_value r1 H1) as (Hd1 & Hv1 & Hz1).
  destruct (digit_of_value r0 H0) as (Hd0 & Hv0 & Hz0).
  assert (Hfirst : forall r rest,
            (r < 10)%N -> r <> 0%N -> no_leading_zero (String (ascii_of_N (48 + r)) rest)).
  { intros r rest Hr Hne rest' Heq. injection Heq as Hc _.
    destruct (digit_of_value r Hr) as (_ & _ & Hz).
    rewrite Hc in Hz. simpl in Hz. symmetry in Hz. apply N.eqb_eq in Hz. contradiction. }
  unfold reads, int_of_digits.
  destruct (N.eqb_spec r3 0) as [-> | N3];
    [destruct (N.eqb_spec r2 0) as [-> | N2];
       [destruct (N.eqb_spec r1 0) as [-> | N1] |] |];
    cbn [list_ascii_of_string forallb foldl];
    rewrite ?Hd3, ?Hd2, ?Hd1, ?Hd0, ?Hv3, ?Hv2, ?Hv1, ?Hv0;
    (split; [split; [reflexivity | lia] | apply Hfirst; [assumption | lia]]).
Qed.

(** *** The fields that [strptime] returns *)

Lemma val2_lt (c1 c2 : ascii) : (val2 c1 c2 < 100)%N.
Proof.
  unfold val2. pose proof (digit_val_lt c1). pose proof (digit_val_lt c2). lia.
Qed.

Lemma group_lt (re2 : ascii -> ascii -> bool) (re1 lit : ascii -> bool)
    (s rest : string) (n : N) :
  group re2 re1 lit s = Some (n, rest) -> (n < 100)%N.
Proof.
  unfold group. destruct s as [|c1 [|c2 [|c3 r]]]; try discriminate.
  - destruct (re1 c1 && lit c2); [| discriminate]. intros [= <- _].
    pose proof (digit_val_lt c1). lia.
  - destruct (re2 c1 c2 && lit c3); [intros [= <- _]; apply val2_lt |].
    destruct (re1 c1 && lit c2); [| discriminate]. intros [= <- _].
    pose proof (digit_val_lt c1). lia.
Qed.

Lemma group_Y_lt (s rest : string) (y : N) :
  group_Y s = Some (y, rest) -> (y < 10000)%N.
Proof.
  unfold group_Y. destruct s as [|y1 [|y2 [|y3 [|y4 [|c r]]]]]; try discriminate.
  destruct (_ && _); [| discriminate]. intros [= <- _].
  pose proof (digit_val_lt y1). pose proof (digit_val_lt y2).
  pose proof (val2_lt y3 y4). lia.
Qed.

(** A parsed timestamp has a year from 1 to 9999 and fields of at most two
    digits. *)
Lemma strptime_bounds (s : string) (dt : datetime) :
  strptime s = Ok dt ->
  (1 <= year dt)%N /\ (year dt < 10000)%N
  /\ (month dt < 100)%N /\ (day dt < 100)%N /\ (hour dt < 100)%N
  /\ (minute dt < 100)%N /\ (second dt < 100)%N.
Proof.
  unfold strptime. destruct (parse s) as [dt'|] eqn:Hparse; [| discriminate].
  destruct (valid dt') eqn:Hvalid; [| discriminate]. intros [= <-].
  unfold valid in Hvalid.
  apply andb_true_iff in Hvalid. destruct Hvalid as (Hvalid & _).
  apply andb_true_iff in Hvalid. destruct Hvalid as (Hyear & _).
  apply N.leb_le in Hyear.
  unfold parse in Hparse.
  apply bind_Some in Hparse. destruct Hparse as ([yr r0] & Hy & Hparse).
  apply bind_Some in Hparse. destruct Hparse as ([mo r1] & Hmo & Hparse).
  apply bind_Some in Hparse. destruct Hparse as ([dy r2] & Hdy & Hparse).
  apply bind_Some in Hparse. destruct Hparse as ([hr r3] & Hhr & Hparse).
  apply bind_Some in Hparse. destruct Hparse as ([mi r4] & Hmi & Hparse).
  apply bind_Some in Hparse. destruct Hparse as ([sc r5] & Hsc & Hparse).
  apply bind_Some in Hparse. destruct Hparse as (us & _ & Hparse).
  injection Hparse as <-. simpl in *.
  split; [exact Hyear |]. split; [exact (group_Y_lt _ _ _ Hy) |].
  repeat split; eapply group_lt; eassumption.
Qed.


Lemma get_entry_of_created (self : JiraIssue) (x : string) :
  created_at (record self) = Some (VStr x) ->
  get_entry self
  = (timestamp ← strptime (slice_to_minus5 x); Ok (strftime timestamp +:+ slice_from_minus5 x)).
Proof.
  unfold created_at, get_entry, getitem. intros Hx.
  destruct (record self !! "fields") as [[| | | | | |fields]|]; try discriminate Hx.
  simpl. unfold getitem. rewrite Hx. reflexivity.
Qed.

(** A successful [get_entry] read a text and printed its parsed prefix
    followed by its last five characters. *)
Lemma get_entry_Ok (self : JiraIssue) (out : string) :
  get_entry self = Ok out ->
  exists x dt,
    created_at (record self) = Some (VStr x)
    /\ strptime (slice_to_minus5 x) = Ok dt
    /\ String.length (slice_from_minus5 x) = 5
    /\ out = strftime dt +:+ slice_from_minus5 x.
Proof.
  unfold get_entry, created_at, getitem. intros Hout.
  destruct (record self !! "fields") as [[| | | | | |fields]|]; try discriminate Hout.
  simpl in Hout. unfold getitem in Hout.
  destruct (fields !! "created") as [[| | | |x| |]|]; try discriminate Hout.
  simpl in Hout. apply bind_Ok in Hout. destruct Hout as (dt & Hdt & Hout).
  injection Hout as <-.
  exists x, dt. split; [reflexivity |]. split; [exact Hdt |]. split; [| reflexivity].
  destruct (strptime_Ok_dash _ _ Hdt) as (y1 & y2 & y3 & y4 & rest & Hshape).
  unfold slice_from_minus5. apply substring_length.
  assert (String.length x - 5 <> 0); [| lia].
  intros Hshort. unfold slice_to_minus5 in Hshape. rewrite Hshort in Hshape.
  destruct x; discriminate Hshape.
Qed.

(** C6. For a created-timestamp made of a prefix that
    ['%Y-%m-%dT%H:%M:%S.%f'] parses and a five character offset,
    [get_entry] returns the parsed timestamp printed as ['%Y%m%dT%H%M%S']
    followed by exactly the same five offset characters: the digits of the
    parsed year, then month, day, hour, minute and second of the parsed
    timestamp with two digits each, the wall-clock values as parsed (no
    conversion to another time zone) and nothing below the second. *)
Theorem get_entry_keeps_offset (self : JiraIssue) (prefix tz : string) (dt : datetime) :
  created_at (record self) = Some (VStr (prefix +:+ tz)) ->
  String.length tz = 5 ->
  strptime prefix = Ok dt ->
  exists Y m d H M S : string,
    get_entry self = Ok (Y +:+ m +:+ d +:+ "T" +:+ H +:+ M +:+ S +:+ tz)
    /\ (reads Y (year dt) /\ no_leading_zero Y)
    /\ (reads m (month dt) /\ String.length m = 2)
    /\ (reads d (day dt) /\ String.length d = 2)
    /\ (reads H (hour dt) /\ String.length H = 2)
    /\ (reads M (minute dt) /\ String.length M = 2)
    /\ (reads S (second dt) /\ String.length S = 2)
    /\ slice_from_minus5 (Y +:+ m +:+ d +:+ "T" +:+ H +:+ M +:+ S +:+ tz) = tz.
Proof.
  intros Hx Htz Hdt.
  destruct (slices_of_app prefix tz Htz) as (Hto & Hfrom).
  destruct (strptime_bounds prefix dt Hdt) as (Hy1 & Hy & Hmo & Hdy & Hhr & Hmi & Hsc).
  exists (year_text (year dt)), (pad2 (month dt)), (pad2 (day dt)),
         (pad2 (hour dt)), (pad2 (minute dt)), (pad2 (second dt)).
  assert (Hout : year_text (year dt) +:+ pad2 (month dt) +:+ pad2 (day dt) +:+ "T"
                 +:+ pad2 (hour dt) +:+ pad2 (minute dt) +:+ pad2 (second dt) +:+ tz
                 = strftime dt +:+ tz).
  { unfold strftime. rewrite string_app_assoc. reflexivity. }
  rewrite Hout.
  split.
  { rewrite (get_entry_of_created self _ Hx), Hto, Hfrom, Hdt. reflexivity. }
  split; [exact (reads_year_text _ Hy1 Hy) |].
  split; [exact (reads_pad2 _ Hmo) |]. split; [exact (reads_pad2 _ Hdy) |].
  split; [exact (reads_pad2 _ Hhr) |]. split; [exact (reads_pad2 _ Hmi) |].
  split; [exact (reads_pad2 _ Hsc) |].
  exact (proj2 (slices_of_app (strftime dt) tz Htz)).
Qed.

Lemma get_entry_keeps_offset_witness :
  let self := Sample.issue {[ "fields" := VDict {[ "created" := VStr "0999-6-06t23:07:08.5+0530" ]} ]} ∅ in
  (created_at (record self) = Some (VStr ("0999-6-06t23:07:08.5" +:+ "+0530"))
   /\ String.length "+0530" = 5
   /\ strptime "0999-6-06t23:07:08.5" = Ok (mk_datetime 999 6 6 23 7 8 500000))
  /\ get_entry self = Ok "9990606T230708+0530"
  /\ exists Y m d H M S : string,
       get_entry self = Ok (Y +:+ m +:+ d +:+ "T" +:+ H +:+ M +:+ S +:+ "+0530")
       /\ (reads Y 999 /\ no_leading_zero Y)
       /\ (reads m 6 /\ String.length m = 2)
       /\ (reads d 6 /\ String.length d = 2)
       /\ (reads H 23 /\ String.length H = 2)
       /\ (reads M 7 /\ String.length M = 2)
       /\ (reads S 8 /\ String.length S = 2)
       /\ slice_from_minus5 (Y +:+ m +:+ d +:+ "T" +:+ H +:+ M +:+ S +:+ "+0530") = "+0530".
Proof.
  intros self. split; [repeat split; reflexivity |]. split; [reflexivity |].
  apply (get_entry_keeps_offset self "0999-6-06t23:07:08.5" "+0530"
           (mk_datetime 999 6 6 23 7 8 500000)); reflexivity.
Defined.

(** C7, as stated, fails: normalising the normalised value raises instead
    of returning it. *)
Lemma get_entry_not_idempotent :
  let created (x : string) : JiraIssue :=
    Sample.issue {[ "fields" := VDict {[ "created" := VStr x ]} ]} ∅ in
  get_entry (created "2016-06-06T06:07:08.123-0700") = Ok "20160606T060708-0700"
  /\ get_entry (created "20160606T060708-0700") = Raise ValueError
  /\ get_entry (created "20160606T060708-0700")
     <> get_entry (created "2016-06-06T06:07:08.123-0700").
Proof. repeat split; first [reflexivity | discriminate]. Qed.

(** C7, as the code has it. [get_entry] is not idempotent: its output is in
    the output format, which it does not accept as input. Whenever
    [get_entry] succeeds, applying it to a payload whose creation
    timestamp is that result raises [ValueError]. *)
Theorem get_entry_rejects_its_output (self self' : JiraIssue) (out : string) :
  get_entry self = Ok out ->
  created_at (record self') = Some (VStr out) ->
  get_entry self' = Raise ValueError.
Proof.
  intros Hout Hx'.
  destruct (get_entry_Ok self out Hout) as (x & dt & _ & _ & Htz & ->).
  rewrite (get_entry_of_created self' _ Hx').
  destruct (slices_of_app (strftime dt) _ Htz) as (-> & _).
  rewrite strptime_strftime. reflexivity.
Qed.

Lemma get_entry_rejects_its_output_witness :
  let created (x : string) : JiraIssue :=
    Sample.issue {[ "fields" := VDict {[ "created" := VStr x ]} ]} ∅ in
  (get_entry (created "2016-06-06T06:07:08.123-0700") = Ok "20160606T060708-0700"
   /\ created_at (record (created "20160606T060708-0700"))
      = Some (VStr "20160606T060708-0700"))
  /\ get_entry (created "20160606T060708-0700") = Raise ValueError.
Proof.
  intros created. split; [split; reflexivity |].
  apply (get_entry_rejects_its_output
           (created "2016-06-06T06:07:08.123-0700")
           (created "20160606T060708-0700") "20160606T060708-0700"); reflexivity.
Defined.

(** ** Tags, when labels are imported *)

Section TagsEnabled.
Context `{Jinja2}.

(** The loop renders each label once, in order, against the payload with
    [label] bound to it: each update of the shared context replaces the
    binding of the previous round. *)
Lemma render_labels_Ok (t : template) (context : dict) (labels : list pyval) :
  forall (bound : dict) (tags out : list string),
    (forall label, <["label" := label]> bound = <["label" := label]> context) ->
    render_labels t bound tags labels = Ok out ->
    exists new,
      out = tags ++ new
      /\ Forall2 (fun label tag => render t (<["label" := label]> context) = Ok tag)
                 labels new.
Proof.
  induction labels as [|label rest IH]; intros bound tags out Hbound Hout; simpl in Hout.
  - injection Hout as <-. exists []. split; [symmetry; apply app_nil_r | constructor].
  - apply bind_Ok in Hout. destruct Hout as (tag & Htag & Hout).
    apply IH in Hout.
    + destruct Hout as (new & -> & Hnew). exists (tag :: new). split.
      * rewrite <- app_assoc. reflexivity.
      * constructor; [rewrite <- Hbound; exact Htag | exact Hnew].
    + intros label'. rewrite insert_insert_eq. apply Hbound.
Qed.

Lemma render_labels_identity (t : template) (ls : list string) :
  (forall (context : dict) (s : string),
     context !! "label" = Some (VStr s) -> render t context = Ok s) ->
  forall (context : dict) (tags : list string),
    render_labels t context tags (VStr <$> ls) = Ok (tags ++ ls).
Proof.
  intros Hrender. induction ls as [|s ls IH]; intros context tags; simpl.
  - rewrite app_nil_r. reflexivity.
  - rewrite (Hrender _ s) by apply lookup_insert_eq. simpl.
    rewrite IH, <- app_assoc. reflexivity.
Qed.

(** C9. With labels imported: under the template ["{{label}}"] the tags
    are exactly the labels of the payload; and for any template, a
    successful [get_tags] has one rendered entry per label, in the order of
    the labels, each the rendering of the template against the payload
    with [label] bound to that label. *)
Theorem get_tags_enabled (self : JiraIssue) (fields : dict) :
  import_labels_as_tags (origin self) = true ->
  record self !! "fields" = Some (VDict fields) ->
  (label_template (origin self) = "{{label}}" -> renders_label ->
   forall ls, fields !! "labels" = Some (VList (VStr <$> ls)) ->
              get_tags self = Ok ls)
  /\ (forall labels tags,
        fields !! "labels" = Some (VList labels) ->
        get_tags self = Ok tags ->
        exists t,
          Template (label_template (origin self)) = Ok t
          /\ Forall2 (fun label tag =>
                        render t (<["label" := label]> (record self)) = Ok tag)
                     labels tags).
Proof.
  intros Hon Hf. split.
  - intros Htpl (t & Ht & Hrender) ls Hls.
    unfold get_tags, dict_get. rewrite Hon, Htpl, Ht, Hf. simpl. rewrite Hls. simpl.
    apply (render_labels_identity t ls Hrender (record self) []).
  - intros labels tags Hls Htags.
    unfold get_tags, dict_get in Htags. rewrite Hon, Hf in Htags. simpl in Htags.
    apply bind_Ok in Htags. destruct Htags as (t & Ht & Htags).
    rewrite Hls in Htags. simpl in Htags.
    apply (render_labels_Ok t (record self)) in Htags; [| reflexivity].
    destruct Htags as (new & -> & Hnew).
    exists t. split; [exact Ht | exact Hnew].
Qed.

End TagsEnabled.

Lemma sample_jinja_renders_label : @renders_label Sample.jinja.
Proof.
  exists "{{label}}". split; [reflexivity |].
  intros context s Hs. simpl. rewrite Hs. reflexivity.
Qed.

Lemma get_tags_enabled_witness :
  let self := Sample.issue Sample.payload ∅ in
  (import_labels_as_tags (origin self) = true
   /\ record self !! "fields" = Some (VDict Sample.fields))
  /\ @get_tags Sample.jinja self = Ok ["feature"; "bug"].
Proof.
  intros self. split; [split; reflexivity |].
  destruct (@get_tags_enabled Sample.jinja self Sample.fields) as (Hid & _);
    [reflexivity | reflexivity |].
  apply (Hid eq_refl sample_jinja_renders_label ["feature"; "bug"]). reflexivity.
Defined.

Lemma get_tags_disabled_witness :
  let off := {| url := "https://jira.example.com"; default_priority := VStr "M";
                import_labels_as_tags := false; label_template := "{{label}}" |} in
  let self := {| record := Sample.payload; origin := off; extra := ∅ |} in
  import_labels_as_tags (origin self) = false
  /\ @get_tags Sample.jinja self = Ok [].
Proof.
  intros off self. split; [reflexivity |].
  apply (@get_tags_disabled Sample.jinja self). reflexivity.
Defined.

Lemma unique_key_stable_and_injective_witness :
  (Sample.payload !! "key" = Some (VStr "DONUT-10")
   /\ Sample.bare_payload !! "key" = Some (VStr "DONUT-11"))
  /\ exists ua ub,
       get_url (Sample.issue Sample.payload ∅) = Ok ua
       /\ get_url (Sample.issue Sample.bare_payload ∅) = Ok ub
       /\ (ua = ub <-> "DONUT-10" = "DONUT-11").
Proof.
  split; [split; reflexivity |].
  destruct (@unique_key_stable_and_injective Sample.repr Sample.jinja Sample.jira_origin
              Sample.payload Sample.bare_payload ∅ ∅ "DONUT-10" "DONUT-11")
    as (Hinj & _); [reflexivity | reflexivity |].
  exact Hinj.
Defined.

(** ** Annotations and the schema version *)

Section Annotations.
Context `{Environment}.

Lemma update_extra_fresh (svc : JiraService) (rec new : dict) :
  update_extra (get_issue_for_record svc rec) new
  = {| record := rec; origin := service_origin svc; extra := new |}.
Proof. unfold update_extra, get_issue_for_record. simpl. rewrite (right_id_L ∅ (∪)). reflexivity. Qed.

(** Version 4 or lower: the loop yields one plain issue per case and calls
    nothing. *)
Lemma issues_loop_legacy (svc : JiraService) (v : Z) (cases : list Case) :
  (v <= 4)%Z ->
  forall st,
    issues_loop svc v cases st
    = {| calls := calls st;
         yielded := yielded st ++ (plain_issue svc v <$> cases);
         failure := failure st |}.
Proof.
  intros Hv. assert (Hgt : (v >? 4)%Z = false) by lia.
  induction cases as [|case rest IH]; intros st; simpl.
  - rewrite app_nil_r. destruct st; reflexivity.
  - rewrite Hgt, IH. simpl. rewrite <- app_assoc. reflexivity.
Qed.

(** Version 5 or higher: every yielded issue carries the annotations of a
    fetch that the run performed; the run fetches the comments of each
    case once, in order, and it ends after the last case or on the first
    case whose [annotations] raises. *)
Lemma issues_loop_current (svc : JiraService) (v : Z) (cases : list Case) :
  (4 < v)%Z ->
  forall st,
    exists done new,
      done `prefix_of` cases
      /\ yielded (issues_loop svc v cases st) = yielded st ++ new
      /\ Forall2 (annotated svc v) done new
      /\ calls st `prefix_of` calls (issues_loop svc v cases st)
      /\ Forall (fun case => FetchComments (key case) ∈ calls (issues_loop svc v cases st)) done
      /\ ((done = cases
           /\ failure (issues_loop svc v cases st) = failure st
           /\ calls (issues_loop svc v cases st) = calls st ++ fetches cases)
          \/ exists e case rest,
               cases = done ++ case :: rest
               /\ failure (issues_loop svc v cases st) = Some e
               /\ annotations case (get_issue_for_record svc (raw case)) = Raise e
               /\ calls (issues_loop svc v cases st) = calls st ++ fetches (done ++ [case])).
Proof.
  intros Hv. assert (Hgt : (v >? 4)%Z = true) by lia.
  induction cases as [|case rest IH]; intros st; simpl.
  - exists [], []. rewrite app_nil_r.
    split; [reflexivity |]. split; [reflexivity |]. split; [constructor |].
    split; [reflexivity |]. split; [constructor |].
    left. split; [reflexivity |]. split; [reflexivity |].
    unfold fetches. simpl. rewrite app_nil_r. reflexivity.
  - rewrite Hgt.
    destruct (annotations case (get_issue_for_record svc (raw case))) as [anns|e] eqn:Hanns.
    + match goal with |- context [issues_loop svc v rest ?st'] => destruct (IH st') as
        (done & new & Hpre & Hy & Hann & Hcalls & Hfetch & Hend) end.
      simpl in Hy, Hcalls, Hend.
      eexists (case :: done), (_ :: new).
      split; [apply prefix_cons; exact Hpre |].
      split; [rewrite Hy, <- app_assoc; reflexivity |].
      split; [constructor; [exists anns; split; [exact Hanns | reflexivity] | exact Hann] |].
      split; [etrans; [apply prefix_app_r; reflexivity | exact Hcalls] |].
      split.
      * constructor; [| exact Hfetch].
        eapply elem_of_prefix; [| exact Hcalls].
        apply elem_of_app. right. apply list_elem_of_singleton. reflexivity.
      * destruct Hend as [(-> & Hfail & Hc) | (e & c & rest' & -> & Hfail & He & Hc)].
        -- left. split; [reflexivity |]. split; [exact Hfail |].
           rewrite Hc, <- app_assoc. reflexivity.
        -- right. exists e, c, rest'. split; [reflexivity |]. split; [exact Hfail |].
           split; [exact He |]. rewrite Hc, <- app_assoc. reflexivity.
    + exists [], []. simpl. rewrite app_nil_r.
      split; [apply prefix_nil |]. split; [reflexivity |].
      split; [constructor |]. split; [apply prefix_app_r; reflexivity |].
      split; [constructor |].
      right. exists e, case, rest. split; [reflexivity |]. split; [reflexivity |].
      split; [exact Hanns | reflexivity].
Qed.

(** C10. With a configured schema version of 4 or lower, a run of
    [issues] never calls the comments endpoint and puts no [annotations]
    entry in the metadata, so [get_annotations] of every yielded issue is
    the empty list (and every case found is yielded). With no version
    configured the version is 5 and annotations are fetched: the run
    fetches the comments of the cases one by one, in order, and yields for
    each case an issue whose [annotations] entry, and so its
    [get_annotations], is what [annotations] built from that fetch; it
    covers every case found, unless [annotations] raises for one of them,
    which ends the run at that case with that exception. *)
Theorem issues_annotations_by_version (svc : JiraService) :
  (forall text v,
     config svc !! "jira.version" = Some text -> getint text = Ok v -> (v <= 4)%Z ->
     (forall k, FetchComments k ∉ calls (issues svc))
     /\ Forall (fun issue => extra issue !! "annotations" = None
                             /\ get_annotations issue = VList [])
               (yielded (issues svc))
     /\ (forall cases, search_issues (query svc) = Ok cases ->
           failure (issues svc) = None
           /\ yielded (issues svc) = plain_issue svc v <$> cases))
  /\ (config svc !! "jira.version" = None ->
      configured_version svc = Ok 5%Z
      /\ forall cases, search_issues (query svc) = Ok cases ->
           exists done,
             done `prefix_of` cases
             /\ Forall2 (annotated svc 5) done (yielded (issues svc))
             /\ Forall2 (fun case issue =>
                           record issue = raw case
                           /\ exists anns,
                                annotations case (get_issue_for_record svc (raw case)) = Ok anns
                                /\ extra issue !! "annotations" = Some (VList (VStr <$> anns))
                                /\ get_annotations issue = VList (VStr <$> anns))
                        done (yielded (issues svc))
             /\ Forall (fun case => FetchComments (key case) ∈ calls (issues svc)) done
             /\ Forall (fun issue => extra issue !! "jira_version" = Some (VInt 5)
                                     /\ exists anns,
                                          get_annotations issue = VList (VStr <$> anns))
                       (yielded (issues svc))
             /\ (failure (issues svc) = None -> done = cases)
             /\ ((done = cases
                  /\ failure (issues svc) = None
                  /\ calls (issues svc) = SearchIssues (query svc) :: fetches cases)
                 \/ exists e case rest,
                      cases = done ++ case :: rest
                      /\ failure (issues svc) = Some e
                      /\ annotations case (get_issue_for_record svc (raw case)) = Raise e
                      /\ calls (issues svc)
                         = SearchIssues (query svc) :: fetches (done ++ [case]))
             /\ (Forall (fun case =>
                           exists anns,
                             annotations case (get_issue_for_record svc (raw case)) = Ok anns)
                        cases ->
                 done = cases)).
Proof.
  split.
  - intros text v Hcfg Hint Hv. unfold issues, configured_version. rewrite Hcfg, Hint.
    destruct (search_issues (query svc)) as [cases|e] eqn:Hsearch.
    + rewrite (issues_loop_legacy svc v cases Hv). simpl.
      split; [| split].
      * intros k Hin. apply list_elem_of_singleton in Hin. discriminate Hin.
      * apply Forall_forall. intros issue Hin.
        apply list_elem_of_fmap in Hin. destruct Hin as (case & -> & _).
        unfold plain_issue. rewrite update_extra_fresh. unfold get_annotations, dict_get.
        simpl. rewrite lookup_singleton_ne by discriminate. split; reflexivity.
      * intros cases' Heq. injection Heq as <-. split; reflexivity.
    + simpl. split; [| split].
      * intros k Hin. apply list_elem_of_singleton in Hin. discriminate Hin.
      * constructor.
      * intros cases' Heq. discriminate Heq.
  - intros Hcfg. unfold issues, configured_version. rewrite Hcfg.
    split; [reflexivity |].
    intros cases Hsearch. rewrite Hsearch.
    match goal with |- context [issues_loop svc 5 cases ?st0] =>
      destruct (issues_loop_current svc 5 cases ltac:(lia) st0)
        as (done & new & Hpre & Hy & Hann & _ & Hfetch & Hend) end.
    simpl in Hy, Hend. rewrite Hy.
    exists done. split; [exact Hpre |]. split; [exact Hann |].
    split.
    { eapply Forall2_impl; [exact Hann |].
      intros case issue (anns & Hanns & ->).
      split; [reflexivity |]. exists anns. split; [exact Hanns |].
      rewrite update_extra_fresh. unfold get_annotations, dict_get. simpl.
      rewrite lookup_insert_eq. split; reflexivity. }
    split; [exact Hfetch |].
    split.
    { eapply Forall2_Forall_r; [exact Hann |].
      apply Forall_forall. intros case _ issue (anns & _ & ->).
      rewrite update_extra_fresh. unfold get_annotations, dict_get. simpl. split.
      * rewrite lookup_insert_ne by discriminate. apply lookup_singleton_eq.
      * exists anns. rewrite lookup_insert_eq. reflexivity. }
    split.
    { intros Hnone. destruct Hend as [(-> & _) | (e & c & rest & _ & He & _)];
        [reflexivity |]. rewrite He in Hnone. discriminate Hnone. }
    split.
    { destruct Hend as [(-> & Hfail & Hc) | (e & c & rest & -> & Hfail & He & Hc)].
      - left. split; [reflexivity |]. split; [exact Hfail |]. rewrite Hc. reflexivity.
      - right. exists e, c, rest. split; [reflexivity |]. split; [exact Hfail |].
        split; [exact He |]. rewrite Hc. reflexivity. }
    intros Hall. destruct Hend as [(-> & _) | (e & c & rest & -> & _ & He & _)];
      [reflexivity |].
    apply Forall_app in Hall. destruct Hall as (_ & Hall).
    apply Forall_cons in Hall. destruct Hall as ((anns & Hanns) & _).
    rewrite He in Hanns. discriminate Hanns.
Qed.

End Annotations.

Lemma issues_annotations_by_version_witness :
  let legacy := Sample.service {[ "jira.version" := "4" ]} in
  let default := Sample.service ∅ in
  let found := [ {| key := "DONUT-10"; raw := Sample.payload |};
                 {| key := "DONUT-11"; raw := Sample.bare_payload |} ] in
  ((config legacy !! "jira.version" = Some "4"
    /\ @getint Sample.env "4" = Ok 4%Z
    /\ (4 <= 4)%Z)
   /\ (forall k, FetchComments k ∉ calls (@issues Sample.env legacy))
   /\ get_annotations <$> yielded (@issues Sample.env legacy) = [VList []; VList []])
  /\ ((config default !! "jira.version" = None
       /\ @search_issues Sample.env (query default) = Ok found)
      /\ get_annotations <$> yielded (@issues Sample.env default)
         = [VList [VStr "@alice - looks good"]; VList []]
      /\ calls (@issues Sample.env default)
         = SearchIssues (query default) :: fetches found
      /\ exists done,
           Forall2 (@annotated Sample.env default 5) done (yielded (@issues Sample.env default))
           /\ done = found).
Proof.
  intros legacy default found. split.
  - split; [repeat split; reflexivity || lia |].
    destruct (@issues_annotations_by_version Sample.env legacy) as (Hlegacy & _).
    destruct (Hlegacy "4" 4%Z) as (Hcalls & _); [reflexivity | reflexivity | lia |].
    split; [exact Hcalls | reflexivity].
  - split; [split; reflexivity |]. split; [reflexivity |]. split; [reflexivity |].
    destruct (@issues_annotations_by_version Sample.env default) as (_ & Hdefault).
    destruct (Hdefault eq_refl) as (_ & Hrun).
    destruct (Hrun found eq_refl) as (done & _ & Hann & _ & _ & _ & Hnone & _).
    exists done. split; [exact Hann | exact (Hnone eq_refl)].
Defined.

Example issues_default_run :
  let r := @issues Sample.env (Sample.service ∅) in
  calls r = [ SearchIssues "assignee=me AND resolution is null";
              FetchComments "DONUT-10"; FetchComments "DONUT-11" ]
  /\ get_annotations <$> yielded r = [ VList [VStr "@alice - looks good"]; VList [] ]
  /\ failure r = None.
Proof. repeat split; reflexivity. Qed.

Example issues_legacy_run :
  let r := @issues Sample.env (Sample.service {[ "jira.version" := "4" ]}) in
  calls r = [ SearchIssues "assignee=me AND resolution is null" ]
  /\ get_annotations <$> yielded r = [ VList []; VList [] ]
  /\ failure r = None.
Proof. repeat split; reflexivity. Qed.

Example identity_split :
  let self := Sample.issue {[ "key" := VStr "PROJ-123" ]} ∅ in
  get_project self = Ok (VStr "PROJ") /\ get_number self = Ok (VStr "123").
Proof. split; reflexivity. Qed.

(** * Further properties of the module *)

(** ** Project and number of a key *)

Lemma rsplit1_without (sep : ascii) (s : string) :
  occurs sep s = false -> rsplit1 sep s = (s, None).
Proof.
  induction s as [|c s IH]; simpl; [reflexivity |].
  intros Hocc. apply orb_false_iff in Hocc. destruct Hocc as (Hc & Hs).
  rewrite (IH Hs), Hc. reflexivity.
Qed.

Lemma rsplit1_at_last (sep : ascii) (p n : string) :
  occurs sep n = false -> rsplit1 sep (p +:+ String sep n) = (p, Some n).
Proof.
  intros Hn. induction p as [|c p IH]; simpl.
  - rewrite (rsplit1_without sep n Hn), Ascii.eqb_refl. reflexivity.
  - rewrite IH. reflexivity.
Qed.

Lemma rsplit1_inv (sep : ascii) (s : string) :
  match rsplit1 sep s with
  | (h, Some t) => s = h +:+ String sep t /\ occurs sep t = false
  | (h, None) => h = s /\ occurs sep s = false
  end.
Proof.
  induction s as [|c s IH]; simpl; [split; reflexivity |].
  destruct (rsplit1 sep s) as [h [t|]].
  - destruct IH as (-> & Ht). split; [reflexivity | exact Ht].
  - destruct IH as (-> & Hs). destruct (Ascii.eqb_spec c sep) as [-> | Hc].
    + split; [reflexivity | exact Hs].
    + split; [reflexivity | simpl; exact Hs].
Qed.

(** X1. A key [P-N] whose part [N] has no hyphen is split at its last
    hyphen: the project is [P], hyphens included, and the number is [N]. *)
Theorem key_split_at_last_hyphen (self : JiraIssue) (p n : string) :
  record self !! "key" = Some (VStr (p +:+ "-" +:+ n)) ->
  occurs "-" n = false ->
  get_project self = Ok (VStr p) /\ get_number self = Ok (VStr n).
Proof.
  intros Hk Hn. unfold get_project, get_number.
  rewrite (getitem_Some _ _ _ Hk). simpl. unfold rsplit.
  change (p +:+ "-" +:+ n) with (p +:+ String "-" n).
  rewrite (rsplit1_at_last "-" p n Hn). split; reflexivity.
Qed.

Lemma key_split_at_last_hyphen_witness :
  let self := Sample.issue {[ "key" := VStr "MY-PROJ-123" ]} ∅ in
  (record self !! "key" = Some (VStr ("MY-PROJ" +:+ "-" +:+ "123"))
   /\ occurs "-" "123" = false)
  /\ get_project self = Ok (VStr "MY-PROJ") /\ get_number self = Ok (VStr "123").
Proof.
  intros self. split; [split; reflexivity |].
  apply (key_split_at_last_hyphen self "MY-PROJ" "123"); reflexivity.
Defined.

(** X2. Whenever [get_number] succeeds, the key is text, [get_project]
    succeeds too, the key is the project, a hyphen and the number, and the
    number has no hyphen. *)
Theorem key_is_project_hyphen_number (self : JiraIssue) (number : pyval) :
  get_number self = Ok number ->
  exists k p n,
    record self !! "key" = Some (VStr k)
    /\ get_project self = Ok (VStr p)
    /\ number = VStr n
    /\ k = p +:+ "-" +:+ n
    /\ occurs "-" n = false.
Proof.
  unfold get_number, get_project, getitem. intros Hnum.
  destruct (record self !! "key") as [[| | | |k| |]|]; try discriminate Hnum.
  simpl in *. unfold rsplit in *.
  pose proof (rsplit1_inv "-" k) as Hinv.
  destruct (rsplit1 "-" k) as [h [t|]]; [| discriminate Hnum].
  destruct Hinv as (-> & Ht). injection Hnum as <-.
  exists (h +:+ String "-" t), h, t. repeat split; try reflexivity. exact Ht.
Qed.

Lemma key_is_project_hyphen_number_witness :
  let self := Sample.issue Sample.payload ∅ in
  get_number self = Ok (VStr "10")
  /\ exists k p n,
       record self !! "key" = Some (VStr k)
       /\ get_project self = Ok (VStr p)
       /\ VStr "10" = VStr n
       /\ k = p +:+ "-" +:+ n
       /\ occurs "-" n = false.
Proof.
  intros self. split; [reflexivity |].
  apply (key_is_project_hyphen_number self (VStr "10")). reflexivity.
Defined.

(** X3. A key without a hyphen is its own project, and has no number:
    [get_number] raises [IndexError]. A key that is not text raises
    [AttributeError] in both, and a missing key [KeyError]. *)
Theorem key_without_hyphen (self : JiraIssue) :
  (forall k, record self !! "key" = Some (VStr k) -> occurs "-" k = false ->
     get_project self = Ok (VStr k) /\ get_number self = Raise IndexError)
  /\ (forall v, record self !! "key" = Some v -> (forall k, v <> VStr k) ->
        get_project self = Raise AttributeError
        /\ get_number self = Raise AttributeError)
  /\ (record self !! "key" = None ->
        get_project self = Raise KeyError /\ get_number self = Raise KeyError).
Proof.
  unfold get_project, get_number. split; [| split].
  - intros k Hk Hocc. rewrite (getitem_Some _ _ _ Hk). simpl. unfold rsplit.
    rewrite (rsplit1_without "-" k Hocc). split; reflexivity.
  - intros v Hv Hshape. rewrite (getitem_Some _ _ _ Hv).
    destruct v; try (split; reflexivity). exfalso. eapply Hshape. reflexivity.
  - intros Hk. rewrite (getitem_None _ _ Hk). split; reflexivity.
Qed.

(** ** The range of priorities *)

Lemma PRIORITY_MAP_values (s : string) (v : pyval) :
  PRIORITY_MAP !! s = Some v -> v ∈ [VStr "H"; VStr "M"; VStr "L"].
Proof.
  revert s v. apply map_Forall_lookup.
  unfold PRIORITY_MAP, dict_display. cbn [foldl fst snd].
  repeat (apply map_Forall_insert_2; [set_solver |]).
  apply map_Forall_empty.
Qed.

Section PriorityRange.
Context `{PyRepr}.

(** X4. Whatever the payload, a priority that [get_priority] returns is one
    of H, M and L or the default priority of the origin. *)
Theorem get_priority_range (self : JiraIssue) (v : pyval) :
  get_priority self = Ok v ->
  v ∈ [VStr "H"; VStr "M"; VStr "L"] \/ v = default_priority (origin self).
Proof.
  unfold get_priority. intros Hv. invert_binds.
  unfold dict_get_value in Hv.
  destruct v2; try (injection Hv as <-; right; reflexivity); try discriminate Hv.
  destruct (PRIORITY_MAP !! s) as [x|] eqn:Hs; simpl in Hv; injection Hv as <-.
  - left. exact (PRIORITY_MAP_values s x Hs).
  - right. reflexivity.
Qed.

(** X5. A label of the table gives the same priority as a bare string and
    as the name of a composite value, and that priority is the table's,
    whatever the default priority of the origin is. *)
Theorem get_priority_of_label (self : JiraIssue) (fields : dict) (s : string) (v : pyval) :
  record self !! "fields" = Some (VDict fields) ->
  PRIORITY_MAP !! s = Some v ->
  fields !! "priority" = Some (VStr s)
  \/ (exists d, fields !! "priority" = Some (VDict d) /\ d !! "name" = Some (VStr s)) ->
  get_priority self = Ok v /\ v ∈ [VStr "H"; VStr "M"; VStr "L"].
Proof.
  intros Hf Hs Hshape. split; [| exact (PRIORITY_MAP_values s v Hs)].
  unfold get_priority. rewrite (getitem_Some _ _ _ Hf). simpl.
  destruct Hshape as [-> | (d & -> & Hn)]; simpl.
  - rewrite Hs. reflexivity.
  - rewrite (getitem_Some _ _ _ Hn). simpl. rewrite Hs. reflexivity.
Qed.

End PriorityRange.

Lemma get_priority_range_witness :
  let self := Sample.issue Sample.payload ∅ in
  @get_priority Sample.repr self = Ok (VStr "H")
  /\ (VStr "H" ∈ [VStr "H"; VStr "M"; VStr "L"]
      \/ VStr "H" = default_priority (origin self)).
Proof.
  intros self. split; [reflexivity |].
  apply (@get_priority_range Sample.repr self (VStr "H")). reflexivity.
Defined.

Lemma get_priority_of_label_witness :
  let self := Sample.issue {[ "fields" := VDict {[ "priority" := VStr "Minor" ]} ]} ∅ in
  (record self !! "fields" = Some (VDict {[ "priority" := VStr "Minor" ]})
   /\ PRIORITY_MAP !! "Minor" = Some (VStr "L"))
  /\ @get_priority Sample.repr self = Ok (VStr "L").
Proof.
  intros self. split; [split; reflexivity |].
  destruct (@get_priority_of_label Sample.repr self {[ "priority" := VStr "Minor" ]}
              "Minor" (VStr "L")) as (Hp & _);
    [reflexivity | reflexivity | left; reflexivity | exact Hp].
Defined.

Lemma key_without_hyphen_witness :
  let self := Sample.issue {[ "key" := VStr "DONUT" ]} ∅ in
  (record self !! "key" = Some (VStr "DONUT") /\ occurs "-" "DONUT" = false)
  /\ get_project self = Ok (VStr "DONUT") /\ get_number self = Raise IndexError.
Proof.
  intros self. split; [split; reflexivity |].
  destruct (key_without_hyphen self) as (Hplain & _).
  apply (Hplain "DONUT"); reflexivity.
Defined.

(** ** The range of estimates *)

Lemma truediv_Ok_float (a b v : pyval) :
  truediv a b = Ok v -> exists f, v = VFloat f.
Proof.
  unfold truediv, int_truediv, float_truediv.
  destruct (as_number a) as [[x|x]|], (as_number b) as [[y|y]|]; simpl;
    try discriminate.
  - destruct (y =? 0)%Z; [discriminate |].
    destruct (SFdiv prec emax (exact_of_Z x) (exact_of_Z y)); intros Hv;
      first [discriminate Hv | injection Hv as <-; eexists; reflexivity].
  - destruct (float_of_Z x) as [fx|]; simpl; [| discriminate].
    destruct (is_zero y); [discriminate |]. intros [= <-]. eexists. reflexivity.
  - destruct (float_of_Z y) as [fy|]; simpl; [| discriminate].
    destruct (is_zero fy); [discriminate |]. intros [= <-]. eexists. reflexivity.
  - destruct (is_zero y); [discriminate |]. intros [= <-]. eexists. reflexivity.
Qed.

(** The division by 60, twice, of a number: a float, or the overflow of an
    integer too large for one. *)
Lemma hours_of_number (t : pyval) (n : number) :
  as_number t = Some n ->
  (exists f, (minutes ← truediv t (VInt 60); truediv minutes (VInt 60)) = Ok (VFloat f))
  \/ (minutes ← truediv t (VInt 60); truediv minutes (VInt 60)) = Raise OverflowError.
Proof.
  intros Hn.
  destruct (truediv t (VInt 60)) as [m|e] eqn:Hm; simpl.
  - destruct (truediv_Ok_float _ _ _ Hm) as (f & ->).
    left. eexists. reflexivity.
  - right. destruct (truediv_60_raises t e Hm) as [-> | ->]; [| reflexivity].
    unfold truediv in Hm. rewrite Hn in Hm. destruct n; simpl in Hm.
    + unfold int_truediv in Hm. simpl in Hm.
      destruct (SFdiv prec emax (exact_of_Z z) (S754_finite false 60 0)); discriminate Hm.
    + discriminate Hm.
Qed.


(** X6. Under the current schema the estimate is a float or null, never an
    integer or text, and it is null exactly when the payload has no numeric
    [fields.timeestimate] (no [fields] mapping, no [timeestimate], or a
    [timeestimate] that is no number). *)
Theorem get_estimate_current_range (self : JiraIssue) :
  eq_int (dict_get (extra self) "jira_version" VNone) 4 = false ->
  (forall v, get_estimate self = Ok v -> v = VNone \/ exists f, v = VFloat f)
  /\ (get_estimate self = Ok VNone <->
      ~ exists fields t n,
          record self !! "fields" = Some (VDict fields)
          /\ fields !! "timeestimate" = Some t
          /\ as_number t = Some n).
Proof.
  intros Hv.
  destruct (record self !! "fields") as [fields|] eqn:Hf.
  2:{ rewrite (get_estimate_current_missing self Hv) by (left; exact Hf).
      split; [intros v [= <-]; left; reflexivity |].
      split; [| reflexivity]. intros _ (? & ? & ? & Hf' & _). discriminate Hf'. }
  assert (Hnot : (forall d, fields <> VDict d) -> get_estimate self = Ok VNone).
  { intros Hshape. apply (get_estimate_current_type_error self fields Hv Hf).
    destruct fields; try exact I. exfalso. eapply Hshape. reflexivity. }
  destruct fields as [| | | | | |d]; try (rewrite Hnot by discriminate;
    split; [intros v [= <-]; left; reflexivity |];
    split; [| reflexivity]; intros _ (? & ? & ? & Hf' & _); discriminate Hf').
  clear Hnot. destruct (d !! "timeestimate") as [t|] eqn:Ht.
  2:{ rewrite (get_estimate_current_missing self Hv) by (right; eauto).
      split; [intros v [= <-]; left; reflexivity |].
      split; [| reflexivity]. intros _ (? & ? & ? & [= <-] & Ht' & _).
      rewrite Ht in Ht'. discriminate Ht'. }
  destruct (as_number t) as [n|] eqn:Hn.
  - assert (Hbody : get_estimate self
                    = try_except (minutes ← truediv t (VInt 60); truediv minutes (VInt 60))
                        [TypeError; KeyError] (Ok VNone)).
    { unfold get_estimate, getitem. rewrite Hv, Hf. simpl. unfold getitem.
      rewrite Ht. reflexivity. }
    rewrite Hbody. destruct (hours_of_number t n Hn) as [(f & ->) | ->]; simpl.
    + split; [intros v [= <-]; right; eexists; reflexivity |].
      split; [discriminate |]. intros Hno. exfalso. apply Hno. eauto 6.
    + split; [discriminate |].
      split; [discriminate |]. intros Hno. exfalso. apply Hno. eauto 6.
  - rewrite (get_estimate_current_type_error self (VDict d) Hv Hf) by eauto.
    split; [intros v [= <-]; left; reflexivity |].
    split; [| reflexivity]. intros _ (? & ? & ? & [= <-] & Ht' & Hn').
    rewrite Ht in Ht'. injection Ht' as <-. rewrite Hn in Hn'. discriminate Hn'.
Qed.

Lemma get_estimate_current_range_witness :
  let self := Sample.issue Sample.payload {[ "jira_version" := VInt 5 ]} in
  eq_int (dict_get (extra self) "jira_version" VNone) 4 = false
  /\ (get_estimate self = Ok VNone <->
      ~ exists fields t n,
          record self !! "fields" = Some (VDict fields)
          /\ fields !! "timeestimate" = Some t
          /\ as_number t = Some n).
Proof.
  intros self. split; [reflexivity |].
  apply (get_estimate_current_range self). reflexivity.
Defined.



(** ** What a record says about its payload *)

Section RecordShape.
Context `{PyRepr} `{Jinja2}.

(** X8. In every record that [to_taskwarrior] returns the identity fields
    agree: [jiraid] is the text key of the payload, [jiraurl] is the url
    of the origin, ["/browse/"] and that key, and [project] is the key up
    to its last hyphen (the whole key when it has none). *)
Theorem to_taskwarrior_identity_fields (self : JiraIssue) (rec : dict) :
  to_taskwarrior self = Ok rec ->
  exists k p,
    record self !! "key" = Some (VStr k)
    /\ rec !! "jiraid" = Some (VStr k)
    /\ rec !! "jiraurl" = Some (VStr (url (origin self) +:+ "/browse/" +:+ k))
    /\ rec !! "project" = Some (VStr p)
    /\ (k = p /\ occurs "-" k = false
        \/ exists n, k = p +:+ "-" +:+ n /\ occurs "-" n = false).
Proof.
  intros Hrec. apply to_taskwarrior_Ok in Hrec.
  destruct Hrec as (project & priority & tags & entry & u & jiraid & description
                    & summary & estimate & version
                    & (Hp & _) & (Hu & Hid & _) & _ & ->).
  unfold get_url, get_project, getitem in *.
  destruct (record self !! "key") as [[| | | |k| |]|]; try discriminate Hu.
  simpl in *. injection Hu as <-. injection Hid as <-.
  unfold rsplit in Hp. pose proof (rsplit1_inv "-" k) as Hinv.
  destruct (rsplit1 "-" k) as [h [t|]]; simpl in Hp; injection Hp as <-.
  - destruct Hinv as (-> & Ht). exists (h +:+ String "-" t), h.
    repeat split; try (cbn; reflexivity). right. exists t. split; [reflexivity | exact Ht].
  - destruct Hinv as (-> & Hk). exists k, k.
    repeat split; try (cbn; reflexivity). left. split; [reflexivity | exact Hk].
Qed.

(** X9. [to_taskwarrior] succeeds only on a payload that has a text key, a
    [fields] mapping, a text [created] timestamp of more than five
    characters and a [summary]: summary and creation date have no
    fallback. *)
Theorem to_taskwarrior_needs (self : JiraIssue) (rec : dict) :
  to_taskwarrior self = Ok rec ->
  exists k fields x,
    record self !! "key" = Some (VStr k)
    /\ record self !! "fields" = Some (VDict fields)
    /\ fields !! "created" = Some (VStr x)
    /\ 5 < String.length x
    /\ is_Some (fields !! "summary").
Proof.
  intros Hrec. apply to_taskwarrior_Ok in Hrec.
  destruct Hrec as (project & priority & tags & entry & u & jiraid & description
                    & summary & estimate & version
                    & (_ & _ & _ & He) & (Hu & _) & (Hs & _) & _).
  destruct (get_entry_Ok self entry He) as (x & dt & Hx & Hdt & Htz & _).
  unfold created_at in Hx.
  destruct (record self !! "fields") as [[| | | | | |fields]|] eqn:Hf;
    try discriminate Hx.
  unfold get_url, getitem in Hu.
  destruct (record self !! "key") as [[| | | |k| |]|]; try discriminate Hu.
  exists k, fields, x. split; [reflexivity |]. split; [reflexivity |].
  split; [exact Hx |]. split.
  - destruct (strptime_Ok_dash _ _ Hdt) as (y1 & y2 & y3 & y4 & rest & Hshape).
    unfold slice_to_minus5 in Hshape.
    destruct (String.length x - 5) as [|m] eqn:Hlen; [| lia].
    destruct x; discriminate Hshape.
  - unfold get_summary, getitem in Hs. rewrite Hf in Hs. simpl in Hs.
    unfold getitem in Hs.
    destruct (fields !! "summary") as [sm|]; [eexists; reflexivity |].
    destruct (eq_int _ 4); discriminate Hs.
Qed.

End RecordShape.

Lemma to_taskwarrior_identity_fields_witness :
  exists rec,
    @to_taskwarrior Sample.repr Sample.jinja (Sample.issue Sample.payload ∅) = Ok rec
    /\ rec !! "jiraid" = Some (VStr "DONUT-10")
    /\ rec !! "project" = Some (VStr "DONUT")
    /\ exists k p,
         Sample.payload !! "key" = Some (VStr k)
         /\ rec !! "jiraid" = Some (VStr k)
         /\ rec !! "jiraurl" = Some (VStr ("https://jira.example.com" +:+ "/browse/" +:+ k))
         /\ rec !! "project" = Some (VStr p)
         /\ (k = p /\ occurs "-" k = false
             \/ exists n, k = p +:+ "-" +:+ n /\ occurs "-" n = false).
Proof.
  eexists. split; [reflexivity |]. split; [reflexivity |]. split; [reflexivity |].
  apply (@to_taskwarrior_identity_fields Sample.repr Sample.jinja
           (Sample.issue Sample.payload ∅)).
  reflexivity.
Defined.

Lemma to_taskwarrior_needs_witness :
  exists rec,
    @to_taskwarrior Sample.repr Sample.jinja (Sample.issue Sample.bare_payload ∅) = Ok rec
    /\ exists k fields x,
         Sample.bare_payload !! "key" = Some (VStr k)
         /\ Sample.bare_payload !! "fields" = Some (VDict fields)
         /\ fields !! "created" = Some (VStr x)
         /\ 5 < String.length x
         /\ is_Some (fields !! "summary").
Proof.
  eexists. split; [reflexivity |].
  eapply (@to_taskwarrior_needs Sample.repr Sample.jinja
            (Sample.issue Sample.bare_payload ∅)).
  reflexivity.
Defined.

(** ** Tags: failures and missing labels *)

Section TagsEdges.
Context `{Jinja2}.

Lemma render_labels_Raise (t : template) (context : dict) (e : exn)
    (before : list pyval) (label : pyval) (after : list pyval) :
  Forall (fun l => exists tag, render t (<["label" := l]> context) = Ok tag) before ->
  render t (<["label" := label]> context) = Raise e ->
  forall (bound : dict) (tags : list string),
    (forall l, <["label" := l]> bound = <["label" := l]> context) ->
    render_labels t bound tags (before ++ label :: after) = Raise e.
Proof.
  intros Hbefore Hlabel. induction Hbefore as [|l before (tag & Htag) _ IH];
    intros bound tags Hbound; simpl.
  - rewrite Hbound, Hlabel. reflexivity.
  - rewrite Hbound, Htag. simpl. apply IH.
    intros l'. rewrite <- (Hbound l), insert_insert_eq. apply Hbound.
Qed.

(** X10. Tags are all or nothing: when the rendering of one label raises,
    [get_tags] raises that exception, whatever was rendered for the labels
    before it and whatever labels follow. *)
Theorem get_tags_all_or_nothing (self : JiraIssue) (fields : dict) (t : template)
    (before : list pyval) (label : pyval) (after : list pyval) (e : exn) :
  import_labels_as_tags (origin self) = true ->
  Template (label_template (origin self)) = Ok t ->
  record self !! "fields" = Some (VDict fields) ->
  fields !! "labels" = Some (VList (before ++ label :: after)) ->
  Forall (fun l => exists tag, render t (<["label" := l]> (record self)) = Ok tag) before ->
  render t (<["label" := label]> (record self)) = Raise e ->
  get_tags self = Raise e.
Proof.
  intros Hon Ht Hf Hls Hbefore Hlabel.
  unfold get_tags, dict_get. rewrite Hon, Ht, Hf. simpl. rewrite Hls. simpl.
  apply (render_labels_Raise t (record self) e before label after Hbefore Hlabel).
  reflexivity.
Qed.

(** X11. With labels imported: a template that does not compile raises
    for every payload, with or without labels; with a template that
    compiles, a payload without [fields], without [labels] or with an
    empty list has no tags, null [labels] raise [TypeError], and a
    [fields] that is no mapping raises [AttributeError]. *)
Theorem get_tags_without_labels (self : JiraIssue) :
  import_labels_as_tags (origin self) = true ->
  (forall e, Template (label_template (origin self)) = Raise e -> get_tags self = Raise e)
  /\ (forall t, Template (label_template (origin self)) = Ok t ->
      (record self !! "fields" = None -> get_tags self = Ok [])
      /\ (forall fields, record self !! "fields" = Some (VDict fields) ->
            (fields !! "labels" = None \/ fields !! "labels" = Some (VList []) ->
             get_tags self = Ok [])
            /\ (fields !! "labels" = Some VNone -> get_tags self = Raise TypeError))
      /\ (forall v, record self !! "fields" = Some v -> (forall d, v <> VDict d) ->
            get_tags self = Raise AttributeError)).
Proof.
  intros Hon. unfold get_tags, dict_get. rewrite Hon. simpl. split.
  - intros e ->. reflexivity.
  - intros t ->. simpl. split; [| split].
    + intros ->. reflexivity.
    + intros fields ->. simpl. split.
      * intros [-> | ->]; reflexivity.
      * intros ->. reflexivity.
    + intros v -> Hshape. destruct v; try reflexivity.
      exfalso. eapply Hshape. reflexivity.
Qed.

End TagsEdges.

Lemma get_tags_without_labels_witness :
  let self := Sample.issue Sample.bare_payload ∅ in
  import_labels_as_tags (origin self) = true
  /\ @get_tags Sample.jinja self = Ok [].
Proof.
  intros self. split; [reflexivity |].
  destruct (@get_tags_without_labels Sample.jinja self) as (_ & Hok); [reflexivity |].
  destruct (Hok "{{label}}") as (_ & Hfields & _); [reflexivity |].
  eapply Hfields; [reflexivity | left; reflexivity].
Defined.

Lemma get_tags_all_or_nothing_witness :
  let self := Sample.issue Sample.payload ∅ in
  (import_labels_as_tags (origin self) = true
   /\ Sample.fields !! "labels" = Some (VList ([VStr "feature"] ++ VStr "bug" :: [])))
  /\ @get_tags strict_jinja self = Raise TemplateError.
Proof.
  intros self. split; [split; reflexivity |].
  apply (@get_tags_all_or_nothing strict_jinja self Sample.fields "{{label}}"
           [VStr "feature"] (VStr "bug") [] TemplateError);
    try reflexivity.
  repeat constructor. exists "feature". reflexivity.
Defined.

(** ** Runs of [issues]: calls, coverage, versions *)

Section Runs.
Context `{Environment}.

(** The loop, for every version: the issues it adds are those of the cases
    it completed, in order; it ends after the last case, or on the first
    case whose [annotations] raises; and it fetches comments once for each
    case it reached when the version is above 4, and never otherwise. *)
Lemma issues_loop_shape (svc : JiraService) (v : Z) (cases : list Case) :
  forall st,
    exists done new,
      yielded (issues_loop svc v cases st) = yielded st ++ new
      /\ record <$> new = raw <$> done
      /\ Forall (fun issue =>
                   origin issue = service_origin svc
                   /\ extra issue !! "jira_version" = Some (VInt v)
                   /\ (is_Some (extra issue !! "annotations") <-> (4 < v)%Z)) new
      /\ ((cases = done
           /\ failure (issues_loop svc v cases st) = failure st
           /\ calls (issues_loop svc v cases st)
              = calls st ++ (if (v >? 4)%Z then fetches done else []))
          \/ (exists e case rest,
                (4 < v)%Z
                /\ cases = done ++ case :: rest
                /\ failure (issues_loop svc v cases st) = Some e
                /\ annotations case (get_issue_for_record svc (raw case)) = Raise e
                /\ calls (issues_loop svc v cases st)
                   = calls st ++ fetches (done ++ [case]))).
Proof.
  induction cases as [|case rest IH]; intros st; simpl.
  - exists [], []. rewrite app_nil_r.
    split; [reflexivity |]. split; [reflexivity |]. split; [constructor |].
    left. split; [reflexivity |]. split; [reflexivity |].
    destruct (v >? 4)%Z; simpl; rewrite app_nil_r; reflexivity.
  - destruct (v >? 4)%Z eqn:Hgt.
    + destruct (annotations case (get_issue_for_record svc (raw case))) as [anns|e] eqn:Hanns.
      * match goal with |- context [issues_loop svc v rest ?st'] =>
          destruct (IH st') as (done & new & Hy & Hrec & Hall & Hend) end.
        simpl in Hy, Hend.
        eexists (case :: done), (_ :: new).
        split; [rewrite Hy, <- app_assoc; reflexivity |].
        split; [rewrite !fmap_cons, Hrec; reflexivity |].
        split.
        { constructor; [| exact Hall]. rewrite update_extra_fresh. simpl.
          split; [reflexivity |]. split.
          - rewrite lookup_insert_ne by discriminate. apply lookup_singleton_eq.
          - rewrite lookup_insert_eq. split; [intros _; lia | intros _; eexists; reflexivity]. }
        destruct Hend as [(-> & Hfail & Hcalls) | (e & c & rest' & Hv & -> & Hfail & He & Hcalls)].
        -- left. split; [reflexivity |]. split; [exact Hfail |].
           rewrite Hcalls, <- app_assoc. reflexivity.
        -- right. exists e, c, rest'. split; [exact Hv |]. split; [reflexivity |].
           split; [exact Hfail |]. split; [exact He |].
           rewrite Hcalls, <- app_assoc. reflexivity.
      * exists [], []. simpl. rewrite app_nil_r.
        split; [reflexivity |]. split; [reflexivity |]. split; [constructor |].
        right. exists e, case, rest. split; [lia |]. split; [reflexivity |].
        split; [reflexivity |]. split; [exact Hanns | reflexivity].
    + match goal with |- context [issues_loop svc v rest ?st'] =>
        destruct (IH st') as (done & new & Hy & Hrec & Hall & Hend) end.
      simpl in Hy, Hend.
      eexists (case :: done), (_ :: new).
      split; [rewrite Hy, <- app_assoc; reflexivity |].
      split; [rewrite !fmap_cons, Hrec; reflexivity |].
      split.
      { constructor; [| exact Hall]. rewrite update_extra_fresh. simpl.
        split; [reflexivity |]. split; [apply lookup_singleton_eq |].
        rewrite lookup_singleton_ne by discriminate.
        split; [intros (? & Hx); discriminate Hx | intros Hlt; lia]. }
      destruct Hend as [(-> & Hfail & Hcalls) | (e & c & rest' & Hv & _)]; [| lia].
      left. split; [reflexivity |]. split; [exact Hfail |].
      rewrite Hcalls. reflexivity.
Qed.

(** X12. A run calls the server in a fixed pattern: the search, once and
    first, then at most one comments fetch per case found, in the order of
    the cases, and nothing else. *)
Theorem issues_calls (svc : JiraService) :
  exists attempted,
    calls (issues svc) = SearchIssues (query svc) :: fetches attempted
    /\ (forall cases, search_issues (query svc) = Ok cases -> attempted `prefix_of` cases)
    /\ (forall e, search_issues (query svc) = Raise e -> attempted = []).
Proof.
  unfold issues.
  destruct (search_issues (query svc)) as [cases|e]; simpl.
  2:{ exists []. split; [reflexivity |]. split; [discriminate | reflexivity]. }
  destruct (configured_version svc) as [v|e]; simpl.
  2:{ exists []. split; [reflexivity |].
      split; [intros; apply prefix_nil | discriminate]. }
  match goal with |- context [issues_loop svc v cases ?st0] =>
    destruct (issues_loop_shape svc v cases st0)
      as (done & new & _ & _ & _ & Hend) end.
  simpl in Hend.
  destruct Hend as [(-> & _ & Hcalls) | (e & c & rest & _ & -> & _ & _ & Hcalls)].
  - exists (if (v >? 4)%Z then done else []). rewrite Hcalls.
    split; [destruct (v >? 4)%Z; reflexivity |].
    split; [| discriminate]. intros cases' [= <-].
    destruct (v >? 4)%Z; [reflexivity | apply prefix_nil].
  - exists (done ++ [c]). rewrite Hcalls. split; [reflexivity |].
    split; [| discriminate]. intros cases' [= <-].
    apply prefix_app. exists rest. reflexivity.
Qed.

(** X13. A run never drops a found issue silently: the payloads of the
    issues it yields are those of the cases found, in order, up to the
    point where it stops; it covers all cases when no exception ends it.
    An exception ends it in one of two ways: the configured version cannot
    be read, which ends the run before the first case, so that nothing is
    yielded; or [annotations] raises for a case, which is then the first
    case not yielded. Without cases found (the search raises) nothing is
    yielded either. *)
Theorem issues_coverage (svc : JiraService) :
  (forall cases,
     search_issues (query svc) = Ok cases ->
     exists done,
       done `prefix_of` cases
       /\ record <$> yielded (issues svc) = raw <$> done
       /\ (failure (issues svc) = None -> done = cases)
       /\ (forall e,
             failure (issues svc) = Some e ->
             (configured_version svc = Raise e /\ done = [])
             \/ (exists v case rest,
                   configured_version svc = Ok v
                   /\ cases = done ++ case :: rest
                   /\ annotations case (get_issue_for_record svc (raw case)) = Raise e))
       /\ (forall e, configured_version svc = Raise e ->
             failure (issues svc) = Some e /\ yielded (issues svc) = [])
       /\ (forall v, configured_version svc = Ok v ->
             done = cases
             \/ exists e case rest,
                  cases = done ++ case :: rest
                  /\ failure (issues svc) = Some e
                  /\ annotations case (get_issue_for_record svc (raw case)) = Raise e))
  /\ (forall e,
        search_issues (query svc) = Raise e ->
        failure (issues svc) = Some e /\ yielded (issues svc) = []).
Proof.
  split.
  - intros cases Hsearch. unfold issues. rewrite Hsearch.
    destruct (configured_version svc) as [v|e]; simpl.
    + match goal with |- context [issues_loop svc v cases ?st0] =>
        destruct (issues_loop_shape svc v cases st0)
          as (done & new & Hy & Hrec & _ & Hend) end.
      simpl in Hy, Hend. rewrite Hy.
      exists done.
      destruct Hend as [(-> & Hfail & _) | (e & c & rest & _ & -> & Hfail & He & _)].
      * split; [reflexivity |]. split; [exact Hrec |]. split; [reflexivity |].
        split; [intros e He; rewrite Hfail in He; discriminate He |].
        split; [intros e He; discriminate He |].
        intros v' _. left. reflexivity.
      * split; [apply prefix_app_r; reflexivity |]. split; [exact Hrec |].
        split; [rewrite Hfail; discriminate |].
        split.
        { intros e' He'. rewrite Hfail in He'. injection He' as <-.
          right. exists v, c, rest. split; [reflexivity |]. split; [reflexivity | exact He]. }
        split; [intros e' He'; discriminate He' |].
        intros v' _. right. exists e, c, rest.
        split; [reflexivity |]. split; [exact Hfail | exact He].
    + exists []. split; [apply prefix_nil |]. split; [reflexivity |].
      split; [discriminate |].
      split; [intros e' [= <-]; left; split; reflexivity |].
      split; [intros e' [= <-]; split; reflexivity |].
      intros v' Hv'. discriminate Hv'.
  - intros e Hsearch. unfold issues. rewrite Hsearch. split; reflexivity.
Qed.

(** X14. Every issue of a run has the origin of the service and the
    configured version in its metadata. The two uses of the version do not
    coincide: the field mappers take the legacy shape exactly for version
    4, while annotations are attached exactly for versions above 4; so a
    version below 4 gives current-shape extraction without annotations. *)
Theorem issues_version_gates (svc : JiraService) (v : Z) :
  configured_version svc = Ok v ->
  Forall (fun issue =>
            origin issue = service_origin svc
            /\ extra issue !! "jira_version" = Some (VInt v)
            /\ eq_int (dict_get (extra issue) "jira_version" VNone) 4 = (v =? 4)%Z
            /\ (is_Some (extra issue !! "annotations") <-> (4 < v)%Z))
         (yielded (issues svc)).
Proof.
  intros Hv. unfold issues. rewrite Hv.
  destruct (search_issues (query svc)) as [cases|e]; simpl; [| constructor].
  match goal with |- context [issues_loop svc v cases ?st0] =>
    destruct (issues_loop_shape svc v cases st0)
      as (done & new & Hy & _ & Hall & _) end.
  simpl in Hy. rewrite Hy.
  eapply Forall_impl; [exact Hall |].
  intros issue (Ho & Hver & Hann). split; [exact Ho |]. split; [exact Hver |].
  split; [| exact Hann]. unfold dict_get. rewrite Hver. reflexivity.
Qed.

End Runs.

Lemma issues_coverage_witness :
  let svc := Sample.service ∅ in
  let unreadable := Sample.service {[ "jira.version" := "five" ]} in
  let found := [ {| key := "DONUT-10"; raw := Sample.payload |};
                 {| key := "DONUT-11"; raw := Sample.bare_payload |} ] in
  (@search_issues Sample.env (query svc) = Ok found
   /\ record <$> yielded (@issues Sample.env svc) = [Sample.payload; Sample.bare_payload])
  /\ (@search_issues Sample.env (query unreadable) = Ok found
      /\ @configured_version Sample.env unreadable = Raise ValueError
      /\ failure (@issues Sample.env unreadable) = Some ValueError
      /\ yielded (@issues Sample.env unreadable) = []).
Proof.
  intros svc unreadable found. split.
  - split; [reflexivity |].
    destruct (@issues_coverage Sample.env svc) as (Hfound & _).
    destruct (Hfound found eq_refl) as (done & _ & Hrec & Hall & _).
    rewrite Hrec, (Hall eq_refl). reflexivity.
  - split; [reflexivity |]. split; [reflexivity |].
    destruct (@issues_coverage Sample.env unreadable) as (Hfound & _).
    destruct (Hfound found eq_refl) as (done & _ & _ & _ & _ & Hcfg & _).
    exact (Hcfg ValueError eq_refl).
Defined.

Lemma issues_version_gates_witness :
  let svc := Sample.service {[ "jira.version" := "4" ]} in
  @configured_version Sample.env svc = Ok 4%Z
  /\ Forall (fun issue =>
               origin issue = service_origin svc
               /\ extra issue !! "jira_version" = Some (VInt 4)
               /\ eq_int (dict_get (extra issue) "jira_version" VNone) 4 = (4 =? 4)%Z
               /\ (is_Some (extra issue !! "annotations") <-> (4 < 4)%Z))
            (yielded (@issues Sample.env svc)).
Proof.
  intros svc. split; [reflexivity |].
  apply (@issues_version_gates Sample.env svc 4%Z). reflexivity.
Defined.

(** ** From the comments of a case to the record of its issue *)

Section RecordAnnotations.
Context `{PyRepr} `{Jinja2} `{Environment}.

Lemma to_taskwarrior_annotations (self : JiraIssue) (rec : dict) :
  to_taskwarrior self = Ok rec -> rec !! "annotations" = Some (get_annotations self).
Proof.
  intros Hrec. apply to_taskwarrior_Ok in Hrec.
  destruct Hrec as (? & ? & ? & ? & ? & ? & ? & ? & ? & ? & _ & _ & _ & ->).
  cbn. reflexivity.
Qed.

(** X15. The record of an issue that a run yields carries, under
    [annotations], what [annotations] built for the case of that issue:
    the formatted comments when the version is above 4 (the empty list
    when the case has no comments), and the empty list for every issue
    when the version is 4 or lower. *)
Theorem record_annotations_of_run (svc : JiraService) (v : Z) (cases : list Case) :
  search_issues (query svc) = Ok cases ->
  configured_version svc = Ok v ->
  Forall (fun issue =>
            forall rec, to_taskwarrior issue = Ok rec ->
              if (v >? 4)%Z
              then exists case anns,
                     case ∈ cases
                     /\ record issue = raw case
                     /\ annotations case (get_issue_for_record svc (raw case)) = Ok anns
                     /\ (comments (key case) = Ok [] -> anns = [])
                     /\ rec !! "annotations" = Some (VList (VStr <$> anns))
              else rec !! "annotations" = Some (VList []))
         (yielded (issues svc)).
Proof.
  intros Hsearch Hv. unfold issues. rewrite Hsearch, Hv.
  destruct (v >? 4)%Z eqn:Hgt.
  - match goal with |- context [issues_loop svc v cases ?st0] =>
      destruct (issues_loop_current svc v cases ltac:(lia) st0)
        as (done & new & Hpre & Hy & Hann & _) end.
    simpl in Hy. rewrite Hy. simpl.
    eapply Forall2_Forall_r; [exact Hann |].
    apply Forall_forall. intros case Hin issue (anns & Hanns & ->) rec Hrec.
    exists case, anns.
    split; [destruct Hpre as (rest & ->); apply elem_of_app; left; exact Hin |].
    split; [reflexivity |]. split; [exact Hanns |]. split.
    + intros Hnone. unfold annotations in Hanns. rewrite Hnone in Hanns.
      simpl in Hanns. injection Hanns as <-. reflexivity.
    + rewrite (to_taskwarrior_annotations _ rec Hrec), update_extra_fresh.
      unfold get_annotations, dict_get. simpl. rewrite lookup_insert_eq. reflexivity.
  - rewrite (issues_loop_legacy svc v cases ltac:(lia)). simpl.
    apply Forall_forall. intros issue Hin rec Hrec.
    apply list_elem_of_fmap in Hin. destruct Hin as (case & -> & _).
    rewrite (to_taskwarrior_annotations _ rec Hrec).
    unfold plain_issue. rewrite update_extra_fresh.
    unfold get_annotations, dict_get. simpl.
    rewrite lookup_singleton_ne by discriminate. reflexivity.
Qed.

End RecordAnnotations.

Lemma record_annotations_of_run_witness :
  let svc := Sample.service ∅ in
  (@search_issues Sample.env (query svc)
   = Ok [ {| key := "DONUT-10"; raw := Sample.payload |};
          {| key := "DONUT-11"; raw := Sample.bare_payload |} ]
   /\ @configured_version Sample.env svc = Ok 5%Z)
  /\ Forall (fun issue =>
               exists rec,
                 @to_taskwarrior Sample.repr Sample.jinja issue = Ok rec
                 /\ exists case anns,
                      record issue = raw case
                      /\ @annotations Sample.env case (get_issue_for_record svc (raw case))
                         = Ok anns
                      /\ rec !! "annotations" = Some (VList (VStr <$> anns)))
            (yielded (@issues Sample.env svc)).
Proof.
  intros svc. split; [split; reflexivity |].
  pose proof (@record_annotations_of_run Sample.repr Sample.jinja Sample.env svc 5%Z _
                eq_refl eq_refl) as Hall.
  assert (Hok : Forall (fun issue =>
                          exists rec, @to_taskwarrior Sample.repr Sample.jinja issue = Ok rec)
                       (yielded (@issues Sample.env svc))).
  { repeat constructor; eexists; reflexivity. }
  apply Forall_forall. intros issue Hin.
  pose proof (proj1 (Forall_forall _ _) Hall issue Hin) as Hrec.
  destruct (proj1 (Forall_forall _ _) Hok issue Hin) as (rec & Hrec').
  exists rec. split; [exact Hrec' |].
  destruct (Hrec rec Hrec') as (case & anns & _ & Hr & Ha & _ & Hl).
  exists case, anns. repeat split; assumption.
Defined.

(** ** The default description *)

Section DefaultDescription.
Context `{IssueBase} `{Environment}.

(** X16. With a summary and a text key, the default description exists
    exactly for a key that has a hyphen: it is built from the summary, the
    processed browse url of the key and the part of the key after its last
    hyphen; for a key without hyphen [get_default_description] raises
    [IndexError]. *)
Theorem get_default_description_needs_number (self : JiraIssue) (k : string) (title : pyval) :
  record self !! "key" = Some (VStr k) ->
  get_summary self = Ok title ->
  (occurs "-" k = false -> get_default_description self = Raise IndexError)
  /\ (forall p n, k = p +:+ "-" +:+ n -> occurs "-" n = false ->
        get_default_description self
        = Ok (build_default_description title
                (get_processed_url (url (origin self) +:+ "/browse/" +:+ k))
                (VStr n) "issue")).
Proof.
  intros Hk Hs. unfold get_default_description. rewrite Hs. simpl.
  rewrite (get_url_of_key self k Hk). simpl. split.
  - intros Hocc. unfold get_number. rewrite (getitem_Some _ _ _ Hk). simpl.
    unfold rsplit. rewrite (rsplit1_without "-" k Hocc). reflexivity.
  - intros p n -> Hn. unfold get_number. rewrite (getitem_Some _ _ _ Hk). simpl.
    unfold rsplit. change (p +:+ "-" +:+ n) with (p +:+ String "-" n).
    rewrite (rsplit1_at_last "-" p n Hn). reflexivity.
Qed.

End DefaultDescription.

Lemma get_default_description_needs_number_witness :
  let self := Sample.issue Sample.payload ∅ in
  (record self !! "key" = Some (VStr "DONUT-10")
   /\ get_summary self = Ok (VStr "lkjaldsfjaldf"))
  /\ @get_default_description plain_description Sample.env self
     = Ok "(bw)issue#10 - lkjaldsfjaldf .. https://jira.example.com/browse/DONUT-10".
Proof.
  intros self. split; [split; reflexivity |].
  destruct (@get_default_description_needs_number plain_description Sample.env self
              "DONUT-10" (VStr "lkjaldsfjaldf")) as (_ & Hdesc);
    [reflexivity | reflexivity |].
  apply (Hdesc "DONUT" "10"); reflexivity.
Defined.

(** ** Class methods: keyring name and configuration check *)

Lemma app_sep_inj (sep : ascii) (u1 u2 b1 b2 : string) :
  occurs sep u1 = false -> occurs sep u2 = false ->
  u1 +:+ String sep b1 = u2 +:+ String sep b2 -> u1 = u2 /\ b1 = b2.
Proof.
  revert u2. induction u1 as [|c u1 IH]; intros [|c' u2] H1 H2 Heq; simpl in *.
  - injection Heq as <-. split; reflexivity.
  - injection Heq as <- _. rewrite Ascii.eqb_refl in H2. discriminate H2.
  - injection Heq as -> _. rewrite Ascii.eqb_refl in H1. discriminate H1.
  - injection Heq as <- Heq.
    apply orb_false_iff in H1. apply orb_false_iff in H2.
    destruct (IH u2 (proj2 H1) (proj2 H2) Heq) as (-> & ->). split; reflexivity.
Qed.

Section ClassMethods.
Context `{ServiceBase}.

(** X17. The keyring service name is ["jira://"], the user name, ["@"] and
    the base uri, and it exists only when the configuration has both
    options. For user names without ["@"] it identifies the account: two
    configurations with the same service name have the same user name and
    the same base uri. *)
Theorem get_keyring_service_identifies (c1 c2 : ConfigParser) (s1 s2 u1 u2 b1 b2 : string) :
  config_get c1 s1 (get_key "username") = Some u1 ->
  config_get c1 s1 (get_key "base_uri") = Some b1 ->
  config_get c2 s2 (get_key "username") = Some u2 ->
  config_get c2 s2 (get_key "base_uri") = Some b2 ->
  get_keyring_service c1 s1 = Some ("jira://" +:+ u1 +:+ "@" +:+ b1)
  /\ (occurs "@" u1 = false -> occurs "@" u2 = false ->
      get_keyring_service c1 s1 = get_keyring_service c2 s2 ->
      u1 = u2 /\ b1 = b2).
Proof.
  intros Hu1 Hb1 Hu2 Hb2. unfold get_keyring_service.
  rewrite Hu1, Hb1, Hu2, Hb2. simpl. split; [reflexivity |].
  intros Ho1 Ho2 Heq.
  apply (app_sep_inj "@" u1 u2 b1 b2 Ho1 Ho2).
  assert (Hs : "jira://" +:+ u1 +:+ "@" +:+ b1 = "jira://" +:+ u2 +:+ "@" +:+ b2)
    by congruence.
  apply (inj (String.app "jira://")) in Hs. exact Hs.
Qed.

End ClassMethods.

Lemma get_keyring_service_identifies_witness :
  let c := one_section "myservice"
             {[ "jira.username" := "foobar"; "jira.base_uri" := "https://jira.example.com" ]} in
  (config_get c "myservice" (@get_key jira_keys "username") = Some "foobar"
   /\ config_get c "myservice" (@get_key jira_keys "base_uri")
      = Some "https://jira.example.com")
  /\ @get_keyring_service jira_keys c "myservice"
     = Some "jira://foobar@https://jira.example.com".
Proof.
  intros c. split; [split; reflexivity |].
  apply (@get_keyring_service_identifies jira_keys c c "myservice" "myservice"
           "foobar" "foobar" "https://jira.example.com" "https://jira.example.com");
    reflexivity.
Defined.

(** Without the restriction on the user name two accounts can share a
    service name. *)
Example keyring_names_can_collide :
  let c1 := one_section "a" {[ "jira.username" := "me@corp"; "jira.base_uri" := "host" ]} in
  let c2 := one_section "b" {[ "jira.username" := "me"; "jira.base_uri" := "corp@host" ]} in
  @get_keyring_service jira_keys c1 "a" = @get_keyring_service jira_keys c2 "b".
Proof. reflexivity. Qed.

(** X18. [validate_config] reaches the validation of the base class
    exactly when the section has the three options [jira.username],
    [jira.password] and [jira.base_uri]; otherwise it dies with
    ["[target] has no 'option'"] for the first of them, in that order,
    that is missing. *)
Theorem validate_config_required (config : ConfigParser) (target : string) :
  (validate_config config target = Delegated <->
   has_option config target "jira.username" = true
   /\ has_option config target "jira.password" = true
   /\ has_option config target "jira.base_uri" = true)
  /\ (has_option config target "jira.username" = false ->
      validate_config config target
      = Died ("[" +:+ target +:+ "] has no 'jira.username'"))
  /\ (has_option config target "jira.username" = true ->
      has_option config target "jira.password" = false ->
      validate_config config target
      = Died ("[" +:+ target +:+ "] has no 'jira.password'"))
  /\ (has_option config target "jira.username" = true ->
      has_option config target "jira.password" = true ->
      has_option config target "jira.base_uri" = false ->
      validate_config config target
      = Died ("[" +:+ target +:+ "] has no 'jira.base_uri'")).
Proof.
  unfold validate_config, require_options, die.
  destruct (has_option config target "jira.username");
    destruct (has_option config target "jira.password");
    destruct (has_option config target "jira.base_uri"); simpl;
    repeat split; try reflexivity; try discriminate;
    try (intros (? & ? & ?); discriminate).
Qed.

Lemma validate_config_required_witness :
  let c := one_section "myservice" {[ "jira.username" := "foobar";
                                      "jira.base_uri" := "https://jira.example.com" ]} in
  (has_option c "myservice" "jira.username" = true
   /\ has_option c "myservice" "jira.password" = false)
  /\ validate_config c "myservice" = Died "[myservice] has no 'jira.password'".
Proof.
  intros c. split; [split; reflexivity |].
  destruct (validate_config_required c "myservice") as (_ & _ & Hpw & _).
  apply Hpw; reflexivity.
Defined.

(** ** Creation date, digit by digit *)

Lemma pad2_digits (c1 c2 : ascii) :
  is_digit c1 = true -> is_digit c2 = true ->
  pad2 (val2 c1 c2) = String c1 (String c2 EmptyString).
Proof.
  intros H1 H2.
  destruct (digit_facts c1 H1) as (Hlt1 & Hc1 & _).
  destruct (digit_facts c2 H2) as (Hlt2 & Hc2 & _).
  unfold val2. rewrite (pad2_of_digits _ _ Hlt1 Hlt2), Hc1, Hc2. reflexivity.
Qed.

(** The year is printed as its four digits without the leading zeros. *)
Lemma year_text_lstrip (y1 y2 y3 y4 : ascii) :
  is_digit y1 = true -> is_digit y2 = true -> is_digit y3 = true -> is_digit y4 = true ->
  (1 <= 1000 * digit_val y1 + 100 * digit_val y2 + val2 y3 y4)%N ->
  year_text (1000 * digit_val y1 + 100 * digit_val y2 + val2 y3 y4)
  = lstrip_zeros (String y1 (String y2 (String y3 (String y4 EmptyString)))).
Proof.
  intros H1 H2 H3 H4 Hpos.
  destruct (digit_facts y1 H1) as (Hlt1 & Hc1 & _).
  destruct (digit_facts y2 H2) as (Hlt2 & Hc2 & _).
  destruct (digit_facts y3 H3) as (Hlt3 & Hc3 & _).
  destruct (digit_facts y4 H4) as (Hlt4 & Hc4 & _).
  unfold val2 in *.
  set (a := digit_val y1) in *. set (b := digit_val y2) in *.
  set (c := digit_val y3) in *. set (d := digit_val y4) in *.
  replace (1000 * a + 100 * b + (10 * c + d))%N
    with (1000 * a + 100 * b + 10 * c + d)%N by lia.
  rewrite (year_text_of_digits a b c d Hlt1 Hlt2 Hlt3 Hlt4).
  destruct (digit_of_value a Hlt1) as (_ & _ & Hz1).
  destruct (digit_of_value b Hlt2) as (_ & _ & Hz2).
  destruct (digit_of_value c Hlt3) as (_ & _ & Hz3).
  destruct (digit_of_value d Hlt4) as (_ & _ & Hz4).
  rewrite Hc1 in Hz1. rewrite Hc2 in Hz2. rewrite Hc3 in Hz3. rewrite Hc4 in Hz4.
  cbn [lstrip_zeros]. rewrite Hz1, Hz2, Hz3, Hz4, Hc1, Hc2, Hc3, Hc4.
  destruct (N.eqb_spec a 0) as [Ha | Ha]; [| reflexivity].
  destruct (N.eqb_spec b 0) as [Hb | Hb]; [| reflexivity].
  destruct (N.eqb_spec c 0) as [Hc | Hc]; [| reflexivity].
  destruct (N.eqb_spec d 0) as [Hd | Hd]; [| reflexivity].
  lia.
Qed.

(** A group written with two digits was matched by its two-character
    alternative. *)
Lemma group_two_digits (re2 : ascii -> ascii -> bool) (re1 lit : ascii -> bool)
    (c1 c2 c3 : ascii) (rest : string) (r : N * string) :
  lit c2 = false ->
  group re2 re1 lit (String c1 (String c2 (String c3 rest))) = Some r ->
  r = (val2 c1 c2, rest).
Proof.
  intros Hlit. unfold group. rewrite Hlit, andb_false_r.
  destruct (re2 c1 c2 && lit c3); [| discriminate]. intros [= <-]. reflexivity.
Qed.

Lemma strptime_two_digit_fields (y1 y2 y3 y4 m1 m2 d1 d2 h1 h2 n1 n2 s1 s2 : ascii)
    (fraction : string) (dt : datetime) :
  is_digit m2 = true -> is_digit d2 = true -> is_digit h2 = true ->
  is_digit n2 = true -> is_digit s2 = true ->
  strptime (jira_timestamp y1 y2 y3 y4 m1 m2 d1 d2 h1 h2 n1 n2 s1 s2 fraction EmptyString)
  = Ok dt ->
  year dt = (1000 * digit_val y1 + 100 * digit_val y2 + val2 y3 y4)%N
  /\ month dt = val2 m1 m2 /\ day dt = val2 d1 d2
  /\ hour dt = val2 h1 h2 /\ minute dt = val2 n1 n2 /\ second dt = val2 s1 s2.
Proof.
  intros Hm Hd Hh Hn Hs.
  destruct (digit_facts m2 Hm) as (_ & _ & Hm' & _).
  destruct (digit_facts d2 Hd) as (_ & _ & _ & Hd' & _).
  destruct (digit_facts h2 Hh) as (_ & _ & _ & _ & Hh' & _).
  destruct (digit_facts n2 Hn) as (_ & _ & _ & _ & Hn' & _).
  destruct (digit_facts s2 Hs) as (_ & _ & _ & _ & _ & Hs').
  unfold strptime. destruct (parse _) as [dt'|] eqn:Hparse; [| discriminate].
  destruct (valid dt'); [| discriminate]. intros [= <-].
  unfold parse, jira_timestamp in Hparse.
  apply bind_Some in Hparse. destruct Hparse as ([yr r0] & Hy & Hparse).
  unfold group_Y in Hy.
  destruct (is_digit y1 && is_digit y2 && is_digit y3 && is_digit y4 && lit_dash "-");
    [| discriminate Hy].
  injection Hy as <- <-.
  apply bind_Some in Hparse. destruct Hparse as ([mo r1] & Hg & Hparse).
  apply (group_two_digits _ _ _ _ _ _ _ _ Hm') in Hg. injection Hg as -> ->.
  apply bind_Some in Hparse. destruct Hparse as ([dy r2] & Hg & Hparse).
  apply (group_two_digits _ _ _ _ _ _ _ _ Hd') in Hg. injection Hg as -> ->.
  apply bind_Some in Hparse. destruct Hparse as ([hr r3] & Hg & Hparse).
  apply (group_two_digits _ _ _ _ _ _ _ _ Hh') in Hg. injection Hg as -> ->.
  apply bind_Some in Hparse. destruct Hparse as ([mi r4] & Hg & Hparse).
  apply (group_two_digits _ _ _ _ _ _ _ _ Hn') in Hg. injection Hg as -> ->.
  apply bind_Some in Hparse. destruct Hparse as ([sc r5] & Hg & Hparse).
  apply (group_two_digits _ _ _ _ _ _ _ _ Hs') in Hg. injection Hg as -> ->.
  apply bind_Some in Hparse. destruct Hparse as (us & _ & Hparse).
  injection Hparse as <-. simpl. repeat split; reflexivity.
Qed.

Lemma string_app_nil_r (s : string) : s +:+ EmptyString = s.
Proof.
  induction s as [|c s IH]; [reflexivity |].
  change (String c (s +:+ EmptyString) = String c s). rewrite IH. reflexivity.
Qed.

Lemma jira_timestamp_split (y1 y2 y3 y4 m1 m2 d1 d2 h1 h2 n1 n2 s1 s2 : ascii)
    (fraction offset : string) :
  jira_timestamp y1 y2 y3 y4 m1 m2 d1 d2 h1 h2 n1 n2 s1 s2 fraction offset
  = jira_timestamp y1 y2 y3 y4 m1 m2 d1 d2 h1 h2 n1 n2 s1 s2 fraction EmptyString
    +:+ offset.
Proof. unfold jira_timestamp. rewrite string_app_nil_r. reflexivity. Qed.

(** X19. On a timestamp written [YYYY-MM-DDTHH:MM:SS.fraction] with two
    digits per field and followed by five offset characters, a successful
    [get_entry] returns the digits of the year without its leading zeros,
    then the same ten digits of month, day, hour, minute and second in the
    same order, without the separators and the fraction, followed by the
    same offset; for a year that does not start with zero these are the
    same fourteen digits. No field is changed and no time zone arithmetic
    is done. *)
Theorem get_entry_keeps_digits (self : JiraIssue)
    (y1 y2 y3 y4 m1 m2 d1 d2 h1 h2 n1 n2 s1 s2 : ascii) (fraction offset out : string) :
  created_at (record self)
  = Some (VStr (jira_timestamp y1 y2 y3 y4 m1 m2 d1 d2 h1 h2 n1 n2 s1 s2 fraction offset)) ->
  String.length offset = 5 ->
  forallb is_digit [y1; y2; y3; y4; m1; m2; d1; d2; h1; h2; n1; n2; s1; s2] = true ->
  get_entry self = Ok out ->
  out = taskwarrior_timestamp
          (lstrip_zeros (String y1 (String y2 (String y3 (String y4 EmptyString)))))
          m1 m2 d1 d2 h1 h2 n1 n2 s1 s2 offset
  /\ (y1 <> "0"%char ->
      out = taskwarrior_timestamp (String y1 (String y2 (String y3 (String y4 EmptyString))))
              m1 m2 d1 d2 h1 h2 n1 n2 s1 s2 offset).
Proof.
  intros Hx Htz Hdigits Hout.
  cbn [forallb] in Hdigits. rewrite andb_true_r in Hdigits.
  apply andb_true_iff in Hdigits. destruct Hdigits as (Hy1 & Hdigits).
  apply andb_true_iff in Hdigits. destruct Hdigits as (Hy2 & Hdigits).
  apply andb_true_iff in Hdigits. destruct Hdigits as (Hy3 & Hdigits).
  apply andb_true_iff in Hdigits. destruct Hdigits as (Hy4 & Hdigits).
  apply andb_true_iff in Hdigits. destruct Hdigits as (Hm1 & Hdigits).
  apply andb_true_iff in Hdigits. destruct Hdigits as (Hm2 & Hdigits).
  apply andb_true_iff in Hdigits. destruct Hdigits as (Hd1 & Hdigits).
  apply andb_true_iff in Hdigits. destruct Hdigits as (Hd2 & Hdigits).
  apply andb_true_iff in Hdigits. destruct Hdigits as (Hh1 & Hdigits).
  apply andb_true_iff in Hdigits. destruct Hdigits as (Hh2 & Hdigits).
  apply andb_true_iff in Hdigits. destruct Hdigits as (Hn1 & Hdigits).
  apply andb_true_iff in Hdigits. destruct Hdigits as (Hn2 & Hdigits).
  apply andb_true_iff in Hdigits. destruct Hdigits as (Hs1 & Hs2).
  rewrite (get_entry_of_created self _ Hx), jira_timestamp_split in Hout.
  destruct (slices_of_app
              (jira_timestamp y1 y2 y3 y4 m1 m2 d1 d2 h1 h2 n1 n2 s1 s2 fraction EmptyString)
              offset Htz) as (Hto & Hfrom).
  rewrite Hto, Hfrom in Hout.
  apply bind_Ok in Hout. destruct Hout as (dt & Hdt & Hout). injection Hout as <-.
  destruct (strptime_two_digit_fields _ _ _ _ _ _ _ _ _ _ _ _ _ _ _ dt
              Hm2 Hd2 Hh2 Hn2 Hs2 Hdt) as (Hyr & Hmo & Hdy & Hhr & Hmi & Hsc).
  destruct (strptime_bounds _ dt Hdt) as (Hpos & _).
  assert (Hout : strftime dt +:+ offset
                 = taskwarrior_timestamp
                     (lstrip_zeros (String y1 (String y2 (String y3 (String y4 EmptyString)))))
                     m1 m2 d1 d2 h1 h2 n1 n2 s1 s2 offset).
  { unfold strftime, taskwarrior_timestamp.
    rewrite Hyr in Hpos. rewrite Hyr, Hmo, Hdy, Hhr, Hmi, Hsc.
    rewrite (year_text_lstrip _ _ _ _ Hy1 Hy2 Hy3 Hy4 Hpos).
    rewrite (pad2_digits _ _ Hm1 Hm2), (pad2_digits _ _ Hd1 Hd2), (pad2_digits _ _ Hh1 Hh2),
      (pad2_digits _ _ Hn1 Hn2), (pad2_digits _ _ Hs1 Hs2).
    rewrite string_app_assoc. reflexivity. }
  split; [exact Hout |].
  intros Hnz. rewrite Hout. cbn [lstrip_zeros].
  rewrite (proj2 (Ascii.eqb_neq y1 "0") Hnz). reflexivity.
Qed.

Lemma get_entry_keeps_digits_witness :
  let self := Sample.issue {[ "fields" := VDict {[ "created" := VStr "0999-06-06T06:07:08.123-0700" ]} ]} ∅ in
  (created_at (record self)
   = Some (VStr (jira_timestamp "0" "9" "9" "9" "0" "6" "0" "6" "0" "6" "0" "7" "0" "8"
                   "123" "-0700"))
   /\ get_entry self = Ok "9990606T060708-0700")
  /\ "9990606T060708-0700"
     = taskwarrior_timestamp (lstrip_zeros "0999") "0" "6" "0" "6" "0" "6" "0" "7" "0" "8"
         "-0700".
Proof.
  intros self. split; [split; reflexivity |].
  apply (get_entry_keeps_digits self "0" "9" "9" "9" "0" "6" "0" "6" "0" "6" "0" "7" "0" "8"
           "123" "-0700"); reflexivity.
Defined.

(** ** Summary and creation date: no fallback *)

Section NoFallback.
Context `{PyRepr} `{Jinja2}.

(** X20. Under the legacy schema a summary that is not wrapped in a
    mapping (the shape of the current schema) makes [get_summary] raise
    [TypeError], and a wrapper without [value] makes it raise [KeyError];
    in both cases [to_taskwarrior] returns no record. *)
Theorem get_summary_legacy_mismatch (self : JiraIssue) (fields : dict) (summary : pyval) :
  eq_int (dict_get (extra self) "jira_version" VNone) 4 = true ->
  record self !! "fields" = Some (VDict fields) ->
  fields !! "summary" = Some summary ->
  match summary with
  | VDict wrapper => wrapper !! "value" = None
  | _ => True
  end ->
  get_summary self
  = Raise (match summary with VDict _ => KeyError | _ => TypeError end)
  /\ forall rec, to_taskwarrior self <> Ok rec.
Proof.
  intros Hv Hf Hs Hshape.
  assert (Hsum : get_summary self
                 = Raise (match summary with VDict _ => KeyError | _ => TypeError end)).
  { unfold get_summary. rewrite Hv, (getitem_Some _ _ _ Hf). simpl.
    rewrite (getitem_Some _ _ _ Hs). simpl.
    destruct summary; try reflexivity. simpl. rewrite (getitem_None _ _ Hshape). reflexivity. }
  split; [exact Hsum |].
  intros rec Hrec. apply to_taskwarrior_Ok in Hrec.
  destruct Hrec as (? & ? & ? & ? & ? & ? & ? & summary' & ? & ? & _ & _ & (Hs' & _) & _).
  rewrite Hsum in Hs'. discriminate Hs'.
Qed.

End NoFallback.

Lemma get_summary_legacy_mismatch_witness :
  let self := Sample.issue Sample.payload {[ "jira_version" := VInt 4 ]} in
  (eq_int (dict_get (extra self) "jira_version" VNone) 4 = true
   /\ record self !! "fields" = Some (VDict Sample.fields)
   /\ Sample.fields !! "summary" = Some (VStr "lkjaldsfjaldf"))
  /\ get_summary self = Raise TypeError.
Proof.
  intros self. split; [repeat split; reflexivity |].
  destruct (@get_summary_legacy_mismatch Sample.repr Sample.jinja self Sample.fields
              (VStr "lkjaldsfjaldf")) as (Hsum & _);
    [reflexivity | reflexivity | reflexivity | exact I | exact Hsum].
Defined.

Lemma strptime_short (s : string) :
  String.length s < 5 -> strptime s = Raise ValueError.
Proof.
  intros Hlen. destruct (strptime s) as [dt|e] eqn:Hs.
  - destruct (strptime_Ok_dash s dt Hs) as (y1 & y2 & y3 & y4 & rest & ->).
    simpl in Hlen. lia.
  - unfold strptime in Hs. destruct (parse s) as [dt|]; [destruct (valid dt) |];
      first [discriminate Hs | injection Hs as <-; reflexivity].
Qed.

(** X21. [get_entry] has no fallback: it raises [KeyError] when the
    payload has no [fields] or no [created], [TypeError] when [fields] is
    no mapping or [created] is not text, and [ValueError] when the text
    has fewer than ten characters (no room for a year, a dash and a five
    character offset). *)
Theorem get_entry_errors (self : JiraIssue) :
  (record self !! "fields" = None -> get_entry self = Raise KeyError)
  /\ (forall v, record self !! "fields" = Some v -> (forall d, v <> VDict d) ->
        get_entry self = Raise TypeError)
  /\ (forall fields, record self !! "fields" = Some (VDict fields) ->
        (fields !! "created" = None -> get_entry self = Raise KeyError)
        /\ (forall v, fields !! "created" = Some v -> (forall x, v <> VStr x) ->
              get_entry self = Raise TypeError)
        /\ (forall x, fields !! "created" = Some (VStr x) -> String.length x < 10 ->
              get_entry self = Raise ValueError)).
Proof.
  unfold get_entry, getitem. split; [| split].
  - intros ->. reflexivity.
  - intros v -> Hshape. destruct v; try reflexivity.
    exfalso. eapply Hshape. reflexivity.
  - intros fields ->. simpl. unfold getitem. split; [| split].
    + intros ->. reflexivity.
    + intros v -> Hshape. destruct v; try reflexivity.
      exfalso. eapply Hshape. reflexivity.
    + intros x -> Hlen. simpl. rewrite strptime_short; [reflexivity |].
      unfold slice_to_minus5.
      destruct (Nat.le_gt_cases (String.length x) 5) as [Hle | Hgt].
      * replace (String.length x - 5) with 0 by lia. destruct x; simpl; lia.
      * rewrite substring_length by lia. lia.
Qed.

Lemma get_entry_errors_witness :
  let self := Sample.issue {[ "fields" := VDict {[ "created" := VStr "2016-0700" ]} ]} ∅ in
  (record self !! "fields" = Some (VDict {[ "created" := VStr "2016-0700" ]})
   /\ String.length "2016-0700" < 10)
  /\ get_entry self = Raise ValueError.
Proof.
  intros self. split; [split; [reflexivity | simpl; lia] |].
  destruct (get_entry_errors self) as (_ & _ & Hfields).
  destruct (Hfields {[ "created" := VStr "2016-0700" ]}) as (_ & _ & Hshort);
    [reflexivity |].
  apply (Hshort "2016-0700"); [reflexivity | simpl; lia].
Defined.
